(** * Signalling and session-state core of the livestream server

    A shallow embedding of the socket.io event handlers of the server
    (the [io.on('connection', ...)] block and the [streamState] /
    [connectedUsers] globals), followed by the properties of the stream
    state machine, the signal relay and the chat relay.

    Conventions of the embedding:
    - a socket id is a [string]; JavaScript truthiness of an id-valued
      expression ([if (x)]) is [truthy]: [null]/[undefined] and the empty
      string are falsy;
    - [streamState.activeStreams] is a JavaScript [Map], whose iteration
      order is insertion order: it is an association list, see [JsMap];
    - [connectedUsers] is a [Map] that is only ever looked up by key: a
      [gmap];
    - [new Date()] and [Date.now()] read the clock; every clock read is an
      argument of the handler that performs it;
    - [viewerCount] is a JavaScript number holding an integer; it is a [Z]
      (increments are exact below 2^53; [join_stream_js] is the handler
      with the increment of the double);
    - [console.log] calls are not modelled;
    - each handler returns the new state together with the list of
      emissions it performed, in program order. *)

From Stdlib Require Import ZArith Ascii String PrimFloat.
From stdpp Require Import gmap strings list.

Open Scope Z_scope.

Abbreviation SocketId := string (only parsing).
Abbreviation Time := Z (only parsing).

(** ** JavaScript [Map] with insertion order *)

Module JsMap.
Section JsMap.
Context {V : Type}.

Definition t := list (SocketId * V).

Definition keys (m : t) : list SocketId := map fst m.

Definition has (k : SocketId) (m : t) : bool :=
  existsb (String.eqb k) (keys m).

(** [m.set(k, v)]: an existing key keeps its position, a new key goes
    last. *)
Fixpoint set (k : SocketId) (v : V) (m : t) : t :=
  match m with
  | [] => [(k, v)]
  | (k', v') :: m' =>
      if String.eqb k k' then (k', v) :: m' else (k', v') :: set k v m'
  end.

Fixpoint delete (k : SocketId) (m : t) : t :=
  match m with
  | [] => []
  | (k', v') :: m' =>
      if String.eqb k k' then m' else (k', v') :: delete k m'
  end.

Definition size (m : t) : Z := Z.of_nat (length m).

(** [m.keys().next().value]: the first key in insertion order,
    [undefined] on an empty map. *)
Definition first_key (m : t) : option SocketId := head (keys m).

(** [a] was inserted before [b]. *)
Definition inserted_before (a b : SocketId) (m : t) : Prop :=
  exists i j : nat, keys m !! i = Some a /\ keys m !! j = Some b /\ (i < j)%nat.
End JsMap.
Arguments t : clear implicits.
End JsMap.

(** ** Data *)

(** An entry of [connectedUsers]. *)
Record User := mkUser {
  username : string;
  isAdmin : bool;
  joinTime : Time }.

(** A value of [streamState.activeStreams]. *)
Record StreamInfo := mkStreamInfo {
  adminUsername : string;
  streamStart : Time;
  isPrimary : bool }.

Record StreamState := mkStreamState {
  isLive : bool;
  activeStreams : JsMap.t StreamInfo;
  viewerCount : Z;
  startTime : option Time;
  currentAdminSocketId : option SocketId }.

(** The server: the two globals, and the connections socket.io holds open
    (a socket is in it from its ['connection'] to its ['disconnect']). *)
Record World := mkWorld {
  streamState : StreamState;
  connectedUsers : gmap string User;
  sockets : gset string }.

Definition initialStreamState : StreamState :=
  {| isLive := false; activeStreams := []; viewerCount := 0;
     startTime := None; currentAdminSocketId := None |}.

Definition initialWorld : World :=
  {| streamState := initialStreamState; connectedUsers := ∅; sockets := ∅ |}.

Definition truthy (x : option SocketId) : bool :=
  match x with
  | Some s => negb (String.eqb s "")
  | None => false
  end.

(** ** Emissions *)

(** [io.emit], [io.to(room).emit] and [socket.emit]. *)
Inductive Target :=
  | ToAll
  | ToRoom (room : SocketId)
  | ToSocket (self : SocketId).

Inductive Payload :=
  | StreamStatus (live : bool) (count : Z) (start : option Time)
      (current : option SocketId)
  | StreamError (message : string)
  | StreamStarted (message : string) (start : option Time)
      (admin : string) (adminSocketId : SocketId)
  | StreamTransition (message : string) (newAdminSocketId : option SocketId)
  | StreamEnded (message : string)
  | ViewerJoined (count : Z) (viewerSocketId : SocketId) (viewer : string)
  | ViewerJoinedConfirmed (message : string) (count : Z)
  | ViewerReady (viewerSocketId : SocketId) (viewer : string)
  | ViewerLeft (count : Z) (viewerSocketId : SocketId) (viewer : string)
  | ViewerCountUpdate (count : Z)
  | WebrtcSignal (signal : string) (from : SocketId) (type : string)
  | ChatMessage (id : Z) (sender : string) (message : string)
      (timestamp : Time) (admin : bool) (socketId : SocketId).

Definition Emission : Type := Target * Payload.

(** Who receives an emission: every socket joins the room named by its
    own id and no handler joins any other room, so a room holds at most
    the socket it is named after. *)
Definition recipients (socks : gset string) (t : Target) : gset string :=
  match t with
  | ToAll => socks
  | ToRoom room => if decide (room ∈ socks) then {[ room ]} else ∅
  | ToSocket self => {[ self ]}
  end.

(** What connection [s] receives out of a list of emissions. *)
Definition inbox (socks : gset string) (out : list Emission) (s : SocketId)
  : list Payload :=
  omap (fun e : Emission =>
          if decide (s ∈ recipients socks (fst e)) then Some (snd e) else None)
       out.

(** ** Inbound payloads *)

(** The argument of ['webrtc-signal']; [sig_from] is the sender a client
    may put in the envelope (the viewer does, the admin does not). *)
Record SignalData := mkSignalData {
  sig_signal : string;
  sig_to : option SocketId;
  sig_type : string;
  sig_from : option SocketId }.

Definition setStream (st : StreamState) (w : World) : World :=
  {| streamState := st; connectedUsers := connectedUsers w;
     sockets := sockets w |}.

Definition setViewerCount (n : Z) (st : StreamState) : StreamState :=
  {| isLive := isLive st; activeStreams := activeStreams st;
     viewerCount := n; startTime := startTime st;
     currentAdminSocketId := currentAdminSocketId st |}.

Definition statusOf (st : StreamState) : Payload :=
  StreamStatus (isLive st) (viewerCount st) (startTime st)
    (currentAdminSocketId st).

(** ** The event handlers

    Each handler is the body of the [socket.on(...)] callback of the same
    name, for the socket whose id is [sid]. *)

(** ['user-info'] *)
Definition user_info (sid : SocketId) (name : string) (admin : bool)
    (now : Time) (w : World) : World * list Emission :=
  let w' := {| streamState := streamState w;
               connectedUsers :=
                 <[sid := {| username := name; isAdmin := admin;
                             joinTime := now |}]> (connectedUsers w);
               sockets := sockets w |} in
  (w', [(ToSocket sid, statusOf (streamState w'))]).

(** ['start-stream']; [now1] and [now2] are its two clock reads. *)
Definition start_stream (sid : SocketId) (now1 now2 : Time) (w : World)
  : World * list Emission :=
  let st := streamState w in
  match connectedUsers w !! sid with
  | Some user =>
      if isAdmin user then
        if JsMap.has sid (activeStreams st) then
          (w, [(ToSocket sid, StreamError "You are already streaming")])
        else
          let st' :=
            {| isLive := true;
               activeStreams :=
                 JsMap.set sid {| adminUsername := username user;
                                  streamStart := now2;
                                  isPrimary := true |} (activeStreams st);
               viewerCount := viewerCount st;
               startTime := Some now1;
               currentAdminSocketId := Some sid |} in
          (setStream st' w,
           [(ToAll, StreamStarted "Live stream started" (startTime st')
                      (username user) sid);
            (ToAll, statusOf st')])
      else (w, [(ToSocket sid, StreamError "Only admins can start streams")])
  | None => (w, [(ToSocket sid, StreamError "Only admins can start streams")])
  end.

(** ['stop-stream'] *)
Definition stop_stream (sid : SocketId) (w : World) : World * list Emission :=
  let st := streamState w in
  match connectedUsers w !! sid with
  | Some user =>
      if isAdmin user && JsMap.has sid (activeStreams st) then
        let streams := JsMap.delete sid (activeStreams st) in
        if bool_decide (currentAdminSocketId st = Some sid) then
          if 0 <? JsMap.size streams then
            let nextAdmin := JsMap.first_key streams in
            (setStream {| isLive := isLive st; activeStreams := streams;
                          viewerCount := viewerCount st;
                          startTime := startTime st;
                          currentAdminSocketId := nextAdmin |} w,
             [(ToAll, StreamTransition "Stream switched to another admin"
                        nextAdmin)])
          else
            (setStream {| isLive := false; activeStreams := streams;
                          viewerCount := 0; startTime := None;
                          currentAdminSocketId := None |} w,
             [(ToAll, StreamEnded "Live stream ended");
              (ToAll, StreamStatus false 0 None None)])
        else
          (setStream {| isLive := isLive st; activeStreams := streams;
                        viewerCount := viewerCount st;
                        startTime := startTime st;
                        currentAdminSocketId := currentAdminSocketId st |} w,
           [])
      else (w, [])
  | None => (w, [])
  end.

(** ['join-stream'] *)
Definition join_stream (sid : SocketId) (w : World) : World * list Emission :=
  let st := streamState w in
  let failed :=
    (w, [(ToSocket sid,
          StreamError (if isLive st then "Failed to join stream"
                       else "No live stream available"))]) in
  match connectedUsers w !! sid with
  | Some user =>
      if negb (isAdmin user) && isLive st then
        let st' := setViewerCount (viewerCount st + 1) st in
        (setStream st' w,
         (if truthy (currentAdminSocketId st') then
            match currentAdminSocketId st' with
            | Some admin =>
                [(ToRoom admin,
                  ViewerJoined (viewerCount st') sid (username user))]
            | None => []
            end
          else [])
         ++ [(ToAll, ViewerCountUpdate (viewerCount st'));
             (ToSocket sid,
              ViewerJoinedConfirmed "Successfully joined stream"
                (viewerCount st'))])
      else failed
  | None => failed
  end.

(** ['viewer-ready'] *)
Definition viewer_ready (sid : SocketId) (w : World) : World * list Emission :=
  let st := streamState w in
  match connectedUsers w !! sid with
  | Some user =>
      if negb (isAdmin user) && isLive st && truthy (currentAdminSocketId st)
      then
        match currentAdminSocketId st with
        | Some admin => (w, [(ToRoom admin, ViewerReady sid (username user))])
        | None => (w, [])
        end
      else (w, [])
  | None => (w, [])
  end.

(** ['leave-stream'] *)
Definition leave_stream (sid : SocketId) (w : World) : World * list Emission :=
  let st := streamState w in
  match connectedUsers w !! sid with
  | Some user =>
      if negb (isAdmin user) && isLive st then
        let st' := setViewerCount (Z.max 0 (viewerCount st - 1)) st in
        (setStream st' w,
         (if truthy (currentAdminSocketId st') then
            match currentAdminSocketId st' with
            | Some admin =>
                [(ToRoom admin,
                  ViewerLeft (viewerCount st') sid (username user))]
            | None => []
            end
          else [])
         ++ [(ToAll, ViewerCountUpdate (viewerCount st'))])
      else (w, [])
  | None => (w, [])
  end.

(** ['get-stream-status'] *)
Definition get_stream_status (sid : SocketId) (w : World)
  : World * list Emission :=
  (w, [(ToSocket sid, statusOf (streamState w))]).

(** ['webrtc-signal'] *)
Definition webrtc_signal (sid : SocketId) (data : SignalData) (w : World)
  : World * list Emission :=
  if truthy (sig_to data) then
    match sig_to data with
    | Some dest =>
        (w, [(ToRoom dest,
              WebrtcSignal (sig_signal data) sid (sig_type data))])
    | None => (w, [])
    end
  else (w, []).

(** ['chat-message']; [nowMs] is [Date.now()], [now] is [new Date()]. *)
Definition chat_message (sid : SocketId) (text : string) (nowMs : Z)
    (now : Time) (w : World) : World * list Emission :=
  match connectedUsers w !! sid with
  | Some user =>
      (w, [(ToAll, ChatMessage nowMs (username user) text now
                     (isAdmin user) sid)])
  | None => (w, [])
  end.

(** ['disconnect']: the socket has left its room when the handler runs,
    and the last statement removes it from [connectedUsers]. *)
Definition disconnect (sid : SocketId) (w : World) : World * list Emission :=
  let st := streamState w in
  let closed (st' : StreamState) :=
    {| streamState := st';
       connectedUsers := base.delete sid (connectedUsers w);
       sockets := sockets w ∖ {[ sid ]} |} in
  match connectedUsers w !! sid with
  | Some user =>
      if isAdmin user && JsMap.has sid (activeStreams st) then
        let streams := JsMap.delete sid (activeStreams st) in
        if bool_decide (currentAdminSocketId st = Some sid) then
          if 0 <? JsMap.size streams then
            let nextAdmin := JsMap.first_key streams in
            (closed {| isLive := isLive st; activeStreams := streams;
                       viewerCount := viewerCount st;
                       startTime := startTime st;
                       currentAdminSocketId := nextAdmin |},
             [(ToAll, StreamTransition
                        "Stream switched due to admin disconnect" nextAdmin)])
          else
            (closed {| isLive := false; activeStreams := streams;
                       viewerCount := 0; startTime := None;
                       currentAdminSocketId := None |},
             [(ToAll, StreamEnded "Stream ended - Admin disconnected");
              (ToAll, StreamStatus false 0 None None)])
        else
          (closed {| isLive := isLive st; activeStreams := streams;
                     viewerCount := viewerCount st;
                     startTime := startTime st;
                     currentAdminSocketId := currentAdminSocketId st |},
           [])
      else if negb (isAdmin user) && isLive st then
        let st' := setViewerCount (Z.max 0 (viewerCount st - 1)) st in
        (closed st',
         (if truthy (currentAdminSocketId st') then
            match currentAdminSocketId st' with
            | Some admin =>
                [(ToRoom admin,
                  ViewerLeft (viewerCount st') sid (username user))]
            | None => []
            end
          else [])
         ++ [(ToAll, ViewerCountUpdate (viewerCount st'))])
      else (closed st, [])
  | None => (closed st, [])
  end.

(** [io.on('connection')]: socket.io opens the connection; the callback
    only installs the handlers. *)
Definition connection (sid : SocketId) (w : World) : World * list Emission :=
  ({| streamState := streamState w; connectedUsers := connectedUsers w;
      sockets := {[ sid ]} ∪ sockets w |}, []).

(** ** Event dispatch *)

Inductive Event :=
  | Connection
  | UserInfo (name : string) (admin : bool) (now : Time)
  | StartStream (now1 now2 : Time)
  | StopStream
  | JoinStream
  | ViewerReadyEv
  | LeaveStream
  | GetStreamStatus
  | WebrtcSignalEv (data : SignalData)
  | ChatMessageEv (text : string) (nowMs : Z) (now : Time)
  | Disconnect.

Definition step (w : World) (sid : SocketId) (ev : Event)
  : World * list Emission :=
  match ev with
  | Connection => connection sid w
  | UserInfo name admin now => user_info sid name admin now w
  | StartStream now1 now2 => start_stream sid now1 now2 w
  | StopStream => stop_stream sid w
  | JoinStream => join_stream sid w
  | ViewerReadyEv => viewer_ready sid w
  | LeaveStream => leave_stream sid w
  | GetStreamStatus => get_stream_status sid w
  | WebrtcSignalEv data => webrtc_signal sid data w
  | ChatMessageEv text nowMs now => chat_message sid text nowMs now w
  | Disconnect => disconnect sid w
  end.

(** The server processes events one at a time, each to completion. *)
Fixpoint run (evs : list (SocketId * Event)) (w : World) : World :=
  match evs with
  | [] => w
  | (sid, ev) :: evs' => run evs' (fst (step w sid ev))
  end.

(** ** The viewer count as a JavaScript number

    [viewerCount] is a double. It starts at 0 and is only incremented,
    decremented with a floor of 0, or reset to 0, so it holds an integer
    between 0 and 2^53. On that range the decrement is exact, and so is
    the increment below 2^53; 2^53 + 1 is not a double and rounds (to
    even) back to 2^53. *)

(** [count++] on a number holding the integer [count], for
    [0 <= count <= 2^53]. *)
Definition js_increment (count : Z) : Z :=
  if count <? 2 ^ 53 then count + 1 else count.

(** The integer [n] as a double, from its binary digits; every step is
    exact for [n <= 2^53]. *)
Fixpoint js_number_pos (p : positive) : float :=
  match p with
  | xH => 1%float
  | xO q => (2 * js_number_pos q)%float
  | xI q => (2 * js_number_pos q + 1)%float
  end.

Definition js_number (n : Z) : float :=
  match n with
  | Z0 => 0%float
  | Zpos p => js_number_pos p
  | Zneg p => (- js_number_pos p)%float
  end.

(** ['join-stream'] with the increment of the double: it is [join_stream]
    while the count is below 2^53, and it is the handler at 2^53 too. *)
Definition join_stream_js (sid : SocketId) (w : World)
  : World * list Emission :=
  let st := streamState w in
  let failed :=
    (w, [(ToSocket sid,
          StreamError (if isLive st then "Failed to join stream"
                       else "No live stream available"))]) in
  match connectedUsers w !! sid with
  | Some user =>
      if negb (isAdmin user) && isLive st then
        let st' := setViewerCount (js_increment (viewerCount st)) st in
        (setStream st' w,
         (if truthy (currentAdminSocketId st') then
            match currentAdminSocketId st' with
            | Some admin =>
                [(ToRoom admin,
                  ViewerJoined (viewerCount st') sid (username user))]
            | None => []
            end
          else [])
         ++ [(ToAll, ViewerCountUpdate (viewerCount st'));
             (ToSocket sid,
              ViewerJoinedConfirmed "Successfully joined stream"
                (viewerCount st'))])
      else failed
  | None => failed
  end.

(** [n] consecutive ['join-stream'] events from the same socket. *)
Fixpoint join_times (n : nat) (sid : SocketId) (w : World) : World :=
  match n with
  | O => w
  | S n' => join_times n' sid (fst (join_stream_js sid w))
  end.

(** The states the server can be in: those an event sequence leads to from
    the initial state. socket.io never hands out an empty socket id. *)
Definition valid_trace (evs : list (SocketId * Event)) : bool :=
  forallb (fun e => negb (String.eqb (fst e) "")) evs.

Definition reachable (w : World) : Prop :=
  exists evs, valid_trace evs = true /\ run evs initialWorld = w.

(** The invariant of [streamState]. *)
Record StreamInv (st : StreamState) : Prop := {
  inv_live : isLive st = true <-> activeStreams st <> [];
  inv_primary : currentAdminSocketId st <> None <-> isLive st = true;
  inv_primary_key : forall c,
    currentAdminSocketId st = Some c ->
    JsMap.has c (activeStreams st) = true }.

(** What else holds of every reachable state. *)
Record WellFormed (st : StreamState) : Prop := {
  wf_inv : StreamInv st;
  wf_keys : NoDup (JsMap.keys (activeStreams st));
  wf_ids : forall k, k ∈ JsMap.keys (activeStreams st) -> k <> "";
  wf_count : 0 <= viewerCount st }.

(** A payload without its human-readable [message] text. *)
Definition strip (p : Payload) : Payload :=
  match p with
  | StreamError _ => StreamError ""
  | StreamStarted _ start admin adminSocketId =>
      StreamStarted "" start admin adminSocketId
  | StreamTransition _ newAdminSocketId => StreamTransition "" newAdminSocketId
  | StreamEnded _ => StreamEnded ""
  | ViewerJoinedConfirmed _ count => ViewerJoinedConfirmed "" count
  | _ => p
  end.

Definition strip_all (out : list Emission) : list Emission :=
  map (fun e => (fst e, strip (snd e))) out.

(** The chat input of [Chat.jsx]. *)
Module Chat.
(** The [maxLength] attribute of the text input. *)
Definition maxLength : nat := 500.
End Chat.

(** ** Concrete executions *)

Module Scenario.
(** Admin1 is streaming; Admin2 has registered and not started. *)
Definition one_live_trace : list (SocketId * Event) :=
  [("admin1", Connection); ("admin1", UserInfo "Admin1" true 100);
   ("admin1", StartStream 101 101);
   ("admin2", Connection); ("admin2", UserInfo "Admin2" true 102)].
Definition one_live : World := run one_live_trace initialWorld.

(** Three admins started in the order admin1, admin2, admin3. *)
Definition three_live_trace : list (SocketId * Event) :=
  one_live_trace ++
  [("admin2", StartStream 103 103);
   ("admin3", Connection); ("admin3", UserInfo "Admin3" true 104);
   ("admin3", StartStream 105 105)].
Definition three_live : World := run three_live_trace initialWorld.

(** Admin1 is streaming, viewer1 has joined, viewer2 has registered and
    never sent ['join-stream']. *)
Definition two_viewers_trace : list (SocketId * Event) :=
  one_live_trace ++
  [("viewer1", Connection); ("viewer1", UserInfo "V1" false 110);
   ("viewer1", JoinStream);
   ("viewer2", Connection); ("viewer2", UserInfo "V2" false 111)].
Definition two_viewers : World := run two_viewers_trace initialWorld.

(** Nobody is streaming; a viewer and an admin have registered. *)
Definition offline_trace : list (SocketId * Event) :=
  [("viewer1", Connection); ("viewer1", UserInfo "V1" false 100);
   ("admin1", Connection); ("admin1", UserInfo "Admin1" true 101)].
Definition offline : World := run offline_trace initialWorld.


(** An answer addressed to [dest] whose envelope claims to come from
    ["admin1"]. *)
Definition answer_to (dest : SocketId) : SignalData :=
  {| sig_signal := "sdp"; sig_to := Some dest; sig_type := "answer";
     sig_from := Some "admin1" |}.

(** [two_viewers] once the viewer count has reached 2^53. *)
Definition saturated : World :=
  setStream (setViewerCount (2 ^ 53) (streamState two_viewers)) two_viewers.

(** A text one character longer than the chat input allows. *)
Definition long_text : string :=
  String.string_of_list_ascii (repeat "a"%char (S Chat.maxLength)).
End Scenario.

(** ** The HTTP surface *)

(** [process.env.NAME || fallback]: an unset and an empty variable both
    give the fallback. *)
Definition env_or (value : option string) (fallback : string) : string :=
  match value with
  | Some s => if String.eqb s "" then fallback else s
  | None => fallback
  end.

(** The body of the reply of [GET /api/stream-status]. *)
Record StatusReport := mkStatusReport {
  report_isLive : bool;
  report_viewerCount : Z;
  report_startTime : option Time;
  report_activeStreams : Z }.

Definition api_stream_status (w : World) : StatusReport :=
  {| report_isLive := isLive (streamState w);
     report_viewerCount := viewerCount (streamState w);
     report_startTime := startTime (streamState w);
     report_activeStreams := JsMap.size (activeStreams (streamState w)) |}.

(** [s.split(' ')]: the pieces between single spaces; two spaces in a row
    give an empty piece. *)
Fixpoint split_space (s : string) : list string :=
  match s with
  | EmptyString => [EmptyString]
  | String c s' =>
      if Ascii.eqb c " " then EmptyString :: split_space s'
      else match split_space s' with
           | piece :: pieces => String c piece :: pieces
           | [] => [String c EmptyString]
           end
  end.

Definition has_space (s : string) : bool :=
  existsb (Ascii.eqb " ") (list_ascii_of_string s).

Module Auth.
Section Auth.
(** The payload of a token, and [jwt.verify(token, secret)]: the decoded
    payload, or [None] when it reports an error. *)
Context {Claims : Type}.
Variable jwt_verify : string -> string -> option Claims.
(** [process.env.JWT_SECRET] *)
Variable JWT_SECRET : option string.

(** What the middleware does with a request: answer it with a status and
    an error, or set [req.user] and call [next()]. *)
Inductive Outcome :=
  | Status (code : Z) (error : string)
  | Next (user : Claims).

(** [authenticateToken]; [authHeader] is [req.headers['authorization']]. *)
Definition authenticateToken (authHeader : option string) : Outcome :=
  let token :=
    if truthy authHeader then
      match authHeader with
      | Some header => split_space header !! 1%nat
      | None => None
      end
    else authHeader in
  if negb (truthy token) then Status 401 "Access token required"
  else
    match token with
    | Some t =>
        match jwt_verify t (env_or JWT_SECRET "your-secret-key") with
        | None => Status 403 "Invalid token"
        | Some user => Next user
        end
    | None => Status 401 "Access token required"
    end.

(** The reply of [GET /api/protected]. *)
Inductive Reply :=
  | Refused (code : Z) (error : string)
  | Accepted (message : string) (user : Claims).

Definition api_protected (authHeader : option string) : Reply :=
  match authenticateToken authHeader with
  | Status code error => Refused code error
  | Next user => Accepted "Protected route accessed" user
  end.
End Auth.
End Auth.

(** ** The chat form of [Chat.jsx]

    [trim] works on UTF-16 code units, so the text of the input is a list
    of code units here. *)
Module ChatClient.
Definition JsString := list N.

(** WhiteSpace and LineTerminator of ECMAScript. *)
Definition isWhiteSpace (c : N) : bool :=
  ((9 <=? c) && (c <=? 13) || (c =? 32) || (c =? 160) || (c =? 5760)
   || (8192 <=? c) && (c <=? 8202) || (c =? 8232) || (c =? 8233)
   || (c =? 8239) || (c =? 8287) || (c =? 12288) || (c =? 65279))%N.

Fixpoint trimStart (s : JsString) : JsString :=
  match s with
  | c :: s' => if isWhiteSpace c then trimStart s' else s
  | [] => []
  end.

Definition trimEnd (s : JsString) : JsString :=
  reverse (trimStart (reverse s)).

Definition trim (s : JsString) : JsString := trimEnd (trimStart s).

(** A non-empty string is truthy. *)
Definition nonempty (s : JsString) : bool :=
  match s with [] => false | _ :: _ => true end.

(** [sendMessage]: [message] is the state of the input, [socket] tells
    whether the [socket] prop is set. The result is the payload of the
    ['chat-message'] emitted, if any, and the new state of the input. *)
Definition sendMessage (socket : bool) (message : JsString)
  : option JsString * JsString :=
  if nonempty (trim message) && socket then (Some (trim message), [])
  else (None, message).
End ChatClient.

(** ** Counting events *)

Definition is_join (e : SocketId * Event) : bool :=
  match snd e with JoinStream => true | _ => false end.

(** How many ['join-stream'] events a trace holds. *)
Fixpoint joins (evs : list (SocketId * Event)) : Z :=
  match evs with
  | [] => 0
  | e :: evs' => (if is_join e then 1 else 0) + joins evs'
  end.

(** What the fields of [streamState] say about each other besides
    [StreamInv]. *)
Record Settled (st : StreamState) : Prop := {
  offline_count : isLive st = false -> viewerCount st = 0;
  offline_start : isLive st = false -> startTime st = None;
  live_start : isLive st = true -> startTime st <> None;
  all_flagged : forall k info,
    (k, info) ∈ activeStreams st -> isPrimary info = true }.

(** * Facts about [JsMap] *)

Section JsMapFacts.
Context {V : Type}.
Implicit Types (m : JsMap.t V) (k : SocketId).

Lemma has_true m k : JsMap.has k m = true <-> k ∈ JsMap.keys m.
Proof.
  unfold JsMap.has. rewrite existsb_exists. split.
  - intros (x & Hx & He). apply String.eqb_eq in He. subst.
    by apply list_elem_of_In.
  - intros H. exists k. split; [by apply list_elem_of_In|].
    apply String.eqb_refl.
Qed.

Lemma has_false m k : JsMap.has k m = false <-> k ∉ JsMap.keys m.
Proof.
  rewrite <- has_true. destruct (JsMap.has k m); split; congruence.
Qed.

Lemma keys_set_new m k v :
  JsMap.has k m = false -> JsMap.keys (JsMap.set k v m) = JsMap.keys m ++ [k].
Proof.
  induction m as [|[k' v'] m IH]; simpl; [done|].
  unfold JsMap.has. simpl.
  destruct (String.eqb k k') eqn:E; simpl; [done|].
  intros H. f_equal. by apply IH.
Qed.

Lemma keys_delete_sublist m k :
  JsMap.keys (JsMap.delete k m) `sublist_of` JsMap.keys m.
Proof.
  induction m as [|[k' v'] m IH]; simpl; [done|].
  destruct (String.eqb k k'); simpl.
  - by apply sublist_cons.
  - by apply sublist_skip.
Qed.

Lemma keys_delete_other m k x :
  x ∈ JsMap.keys m -> x <> k -> x ∈ JsMap.keys (JsMap.delete k m).
Proof.
  induction m as [|[k' v'] m IH]; simpl; [done|].
  intros Hin Hne. destruct (String.eqb_spec k k') as [->|Hk]; simpl.
  - apply elem_of_cons in Hin as [?|?]; [congruence|done].
  - apply elem_of_cons in Hin as [->|?]; [left|right; by apply IH].
Qed.

Lemma keys_delete_self m k :
  NoDup (JsMap.keys m) -> k ∉ JsMap.keys (JsMap.delete k m).
Proof.
  induction m as [|[k' v'] m IH]; simpl; [intros _; apply not_elem_of_nil|].
  intros Hnd. apply NoDup_cons in Hnd as [Hk' Hnd].
  destruct (String.eqb_spec k k') as [->|Hk]; simpl; [done|].
  apply not_elem_of_cons. split; [done|by apply IH].
Qed.

Lemma NoDup_keys_delete m k :
  NoDup (JsMap.keys m) -> NoDup (JsMap.keys (JsMap.delete k m)).
Proof. intros H. eapply sublist_NoDup; [done|apply keys_delete_sublist]. Qed.

Lemma NoDup_keys_set_new m k v :
  JsMap.has k m = false -> NoDup (JsMap.keys m) ->
  NoDup (JsMap.keys (JsMap.set k v m)).
Proof.
  intros Hk Hnd. rewrite keys_set_new by done.
  apply NoDup_app. split; [done|]. split; [|apply NoDup_singleton].
  intros x Hx Hxk. apply list_elem_of_singleton in Hxk as ->.
  by apply has_false in Hk.
Qed.

Lemma size_pos_first_key m :
  (0 <? JsMap.size m) = true ->
  exists k, JsMap.first_key m = Some k /\ k ∈ JsMap.keys m.
Proof.
  destruct m as [|[k v] m]; simpl; [done|].
  intros _. exists k. split; [done|left].
Qed.

Lemma size_zero_nil m : (0 <? JsMap.size m) = false -> m = [].
Proof.
  destruct m; [done|]. unfold JsMap.size. simpl length.
  intros H. apply Z.ltb_ge in H. lia.
Qed.
End JsMapFacts.

(** Order in a sublist is order in the list. *)
Lemma sublist_before (l1 l2 : list string) (a b : string) :
  l1 `sublist_of` l2 ->
  (exists i j : nat, l1 !! i = Some a /\ l1 !! j = Some b /\ (i < j)%nat) ->
  exists i j : nat, l2 !! i = Some a /\ l2 !! j = Some b /\ (i < j)%nat.
Proof.
  induction 1 as [|x l1 l2 Hs IH|x l1 l2 Hs IH]; intros (i & j & Hi & Hj & Hlt).
  - done.
  - destruct j as [|j]; [lia|]. destruct i as [|i]; simpl in *.
    + assert (b ∈ l2) as Hb.
      { eapply elem_of_sublist; [|done]. apply list_elem_of_lookup; eauto. }
      apply list_elem_of_lookup in Hb as [j' Hj'].
      exists O, (S j'). repeat split; [done|done|lia].
    + destruct IH as (i' & j' & ? & ? & ?); [exists i, j; repeat split; [done..|lia]|].
      exists (S i'), (S j'). repeat split; [done..|lia].
  - destruct IH as (i' & j' & ? & ? & ?); [by exists i, j|].
    exists (S i'), (S j'). repeat split; [done..|lia].
Qed.

Section JsMapSet.
Context {V : Type}.
Implicit Types (m : JsMap.t V) (k : SocketId).

Lemma has_set m k v : JsMap.has k (JsMap.set k v m) = true.
Proof.
  apply has_true. induction m as [|[k' v'] m IH]; simpl; [left|].
  destruct (String.eqb_spec k k') as [->|Hk]; simpl; [left|by right].
Qed.

Lemma set_not_nil m k v : JsMap.set k v m <> [].
Proof. destruct m as [|[k' v'] m]; simpl; [done|]. by destruct (String.eqb k k'). Qed.
End JsMapSet.

(** * The handlers and the stream state *)

(** Case analysis on the guards of a handler. *)
Ltac handler_cases :=
  repeat match goal with
    | |- context [connectedUsers ?w !! ?sid] =>
        let E := fresh "Huser" in
        destruct (connectedUsers w !! sid) as [?user|] eqn:E
    | |- context [isAdmin ?u] =>
        let E := fresh "Hadmin" in destruct (isAdmin u) eqn:E
    | |- context [JsMap.has ?k ?m] =>
        let E := fresh "Hhas" in destruct (JsMap.has k m) eqn:E
    | |- context [bool_decide ?P] =>
        let E := fresh "Hprim" in destruct (bool_decide P) eqn:E
    | |- context [0 <? ?n] =>
        let E := fresh "Hsize" in destruct (0 <? n) eqn:E
    | _ => progress (cbn [andb negb fst snd])
    end.

(** On the stream state, ['disconnect'] is ['stop-stream'] for an admin
    with an active stream. *)
Lemma disconnect_as_stop w sid user :
  connectedUsers w !! sid = Some user ->
  isAdmin user = true ->
  JsMap.has sid (activeStreams (streamState w)) = true ->
  streamState (fst (disconnect sid w)) = streamState (fst (stop_stream sid w))
  /\ strip_all (snd (disconnect sid w)) = strip_all (snd (stop_stream sid w)).
Proof.
  intros Hu Ha Hh. unfold disconnect, stop_stream. rewrite Hu, Ha, Hh.
  handler_cases; done.
Qed.

(** On the stream state, ['disconnect'] is ['leave-stream'] for every
    registered connection that is not an admin. *)
Lemma disconnect_as_leave w sid user :
  connectedUsers w !! sid = Some user ->
  isAdmin user = false ->
  streamState (fst (disconnect sid w)) = streamState (fst (leave_stream sid w))
  /\ snd (disconnect sid w) = snd (leave_stream sid w).
Proof.
  intros Hu Ha. unfold disconnect, leave_stream. rewrite Hu, Ha.
  destruct (isLive (streamState w)); done.
Qed.

(** Otherwise ['disconnect'] leaves the stream state alone. *)
Lemma disconnect_idle w sid :
  match connectedUsers w !! sid with
  | Some user =>
      isAdmin user = true /\ JsMap.has sid (activeStreams (streamState w)) = false
  | None => True
  end ->
  streamState (fst (disconnect sid w)) = streamState w
  /\ snd (disconnect sid w) = [].
Proof.
  unfold disconnect. destruct (connectedUsers w !! sid) as [user|]; [|done].
  intros [-> ->]. done.
Qed.

Lemma start_stream_inv w sid now1 now2 :
  StreamInv (streamState w) ->
  StreamInv (streamState (fst (start_stream sid now1 now2 w))).
Proof.
  intros Hinv. unfold start_stream. handler_cases; try done.
  split; simpl.
  - split; [intros _; apply set_not_nil|done].
  - done.
  - intros c [= <-]. apply has_set.
Qed.

Lemma stop_stream_inv w sid :
  StreamInv (streamState w) -> StreamInv (streamState (fst (stop_stream sid w))).
Proof.
  intros [Hl Hp Hk]. unfold stop_stream. handler_cases; try done.
  - (* the primary stops, another stream takes over *)
    destruct (size_pos_first_key _ Hsize) as (k & Hfirst & Hin).
    assert (isLive (streamState w) = true) as Hlive.
    { apply Hp. apply bool_decide_eq_true in Hprim. congruence. }
    split; simpl.
    + rewrite Hlive.
      split; [intros _ Hnil; rewrite Hnil in Hin; by apply elem_of_nil in Hin|done].
    + rewrite Hfirst, Hlive. done.
    + rewrite Hfirst. intros c [= <-]. by apply has_true.
  - (* the last stream stops *)
    apply size_zero_nil in Hsize. split; simpl; rewrite ?Hsize; done.
  - (* a secondary stream stops *)
    apply bool_decide_eq_false in Hprim.
    assert (isLive (streamState w) = true) as Hlive.
    { apply Hl. intros Hnil. rewrite Hnil in Hhas. done. }
    destruct (currentAdminSocketId (streamState w)) as [c|] eqn:Hc;
      [|by apply Hp in Hlive].
    assert (c ∈ JsMap.keys (JsMap.delete sid (activeStreams (streamState w)))) as Hin.
    { apply keys_delete_other; [by apply has_true, Hk|congruence]. }
    split; simpl.
    + rewrite Hlive. split; [intros _ Hnil; rewrite Hnil in Hin; by apply elem_of_nil in Hin|done].
    + rewrite Hlive. done.
    + intros c' [= <-]. by apply has_true.
Qed.

Lemma setViewerCount_inv n st : StreamInv st -> StreamInv (setViewerCount n st).
Proof. intros [Hl Hp Hk]. by split. Qed.

Lemma join_stream_inv w sid :
  StreamInv (streamState w) -> StreamInv (streamState (fst (join_stream sid w))).
Proof.
  intros Hinv. unfold join_stream.
  destruct (isLive (streamState w)) eqn:Hlive; handler_cases; try done.
  by apply setViewerCount_inv.
Qed.

Lemma leave_stream_inv w sid :
  StreamInv (streamState w) -> StreamInv (streamState (fst (leave_stream sid w))).
Proof.
  intros Hinv. unfold leave_stream.
  destruct (isLive (streamState w)) eqn:Hlive; handler_cases; try done.
  by apply setViewerCount_inv.
Qed.

Lemma disconnect_inv w sid :
  StreamInv (streamState w) -> StreamInv (streamState (fst (disconnect sid w))).
Proof.
  intros Hinv.
  destruct (connectedUsers w !! sid) as [user|] eqn:Hu.
  - destruct (isAdmin user) eqn:Ha.
    + destruct (JsMap.has sid (activeStreams (streamState w))) eqn:Hh.
      * rewrite (proj1 (disconnect_as_stop w sid user Hu Ha Hh)).
        by apply stop_stream_inv.
      * destruct (disconnect_idle w sid) as [-> _]; [by rewrite Hu|done].
    + rewrite (proj1 (disconnect_as_leave w sid user Hu Ha)).
      by apply leave_stream_inv.
  - destruct (disconnect_idle w sid) as [-> _]; [by rewrite Hu|done].
Qed.

Lemma initial_inv : StreamInv initialStreamState.
Proof. split; simpl; done. Qed.

Lemma step_inv w sid ev :
  StreamInv (streamState w) -> StreamInv (streamState (fst (step w sid ev))).
Proof.
  intros Hinv. destruct ev; simpl;
    auto using start_stream_inv, stop_stream_inv, join_stream_inv,
      leave_stream_inv, disconnect_inv.
  - unfold viewer_ready. handler_cases; try done.
    by destruct (isLive _), (currentAdminSocketId _) as [[|??]|].
  - unfold webrtc_signal. by destruct (truthy _), (sig_to data).
  - unfold chat_message. by handler_cases.
Qed.

(** How one event changes the set of streams and the viewer count. *)
Lemma step_shape w sid ev :
  let st := streamState w in
  let st' := streamState (fst (step w sid ev)) in
  (activeStreams st' = activeStreams st
   \/ (exists v, JsMap.has sid (activeStreams st) = false
                 /\ activeStreams st' = JsMap.set sid v (activeStreams st))
   \/ activeStreams st' = JsMap.delete sid (activeStreams st))
  /\ (viewerCount st' = viewerCount st
      \/ viewerCount st' = viewerCount st + 1
      \/ viewerCount st' = Z.max 0 (viewerCount st - 1)
      \/ viewerCount st' = 0).
Proof.
  destruct ev; simpl.
  - auto.
  - auto.
  - unfold start_stream. handler_cases; simpl; auto.
    split; [right; left; eauto|auto].
  - unfold stop_stream. handler_cases; simpl; auto 6.
  - unfold join_stream. destruct (isLive _); handler_cases; simpl; auto 6.
  - unfold viewer_ready. handler_cases; auto;
      destruct (isLive _), (currentAdminSocketId _) as [[|??]|]; simpl; auto.
  - unfold leave_stream. destruct (isLive _); handler_cases; simpl; auto 6.
  - auto.
  - unfold webrtc_signal. destruct (truthy _), (sig_to data); auto.
  - unfold chat_message. handler_cases; auto.
  - unfold disconnect. destruct (isLive _); handler_cases; simpl; auto 6.
Qed.

Lemma step_wf w sid ev :
  sid <> "" ->
  WellFormed (streamState w) -> WellFormed (streamState (fst (step w sid ev))).
Proof.
  intros Hsid [Hinv Hnd Hids Hc].
  destruct (step_shape w sid ev) as [Hs Hv].
  split.
  - by apply step_inv.
  - destruct Hs as [->|[(v & Hh & ->)| ->]];
      [done|by apply NoDup_keys_set_new|by apply NoDup_keys_delete].
  - intros k. destruct Hs as [->|[(v & Hh & ->)| ->]]; [by auto| |].
    + rewrite keys_set_new by done. intros [?| ->%list_elem_of_singleton]%elem_of_app; auto.
    + intros Hk. apply Hids. eapply elem_of_sublist; [done|apply keys_delete_sublist].
  - lia.
Qed.

Lemma run_wf evs w :
  valid_trace evs = true ->
  WellFormed (streamState w) -> WellFormed (streamState (run evs w)).
Proof.
  revert w. induction evs as [|[sid ev] evs IH]; intros w Hv Hw; simpl; [done|].
  simpl in Hv. apply andb_true_iff in Hv as [Hsid Hv].
  apply IH; [done|]. apply step_wf; [|done].
  intros ->. done.
Qed.

Lemma initial_wf : WellFormed initialStreamState.
Proof.
  split; simpl; [apply initial_inv|apply NoDup_nil_2| |done].
  intros k Hk. by apply elem_of_nil in Hk.
Qed.

Lemma reachable_wf w : reachable w -> WellFormed (streamState w).
Proof. intros (evs & Hv & <-). apply run_wf; [done|apply initial_wf]. Qed.

(** In a live reachable state the primary is set and truthy. *)
Lemma reachable_primary w :
  reachable w -> isLive (streamState w) = true ->
  exists p, currentAdminSocketId (streamState w) = Some p
            /\ truthy (Some p) = true
            /\ JsMap.has p (activeStreams (streamState w)) = true.
Proof.
  intros [[Hl Hp Hk] _ Hids _]%reachable_wf Hlive.
  destruct (currentAdminSocketId (streamState w)) as [p|] eqn:Hc;
    [|by apply Hp in Hlive].
  exists p. split; [done|]. split; [|by apply Hk].
  simpl. by apply negb_true_iff, String.eqb_neq, Hids, has_true, Hk.
Qed.

Lemma run_inv evs w :
  StreamInv (streamState w) -> StreamInv (streamState (run evs w)).
Proof.
  revert w. induction evs as [|[sid ev] evs IH]; intros w Hw; simpl; [done|].
  by apply IH, step_inv.
Qed.

(** * Starting a stream *)

(** C1, as amended: a successful ['start-stream'] from an admin without a
    stream of its own adds that admin's stream last in insertion order and
    makes that admin the primary: [currentAdminSocketId] becomes the caller
    and [startTime] the time of the call, whether or not a stream was live
    already. *)
Theorem start_stream_takes_primary w sid user now1 now2 :
  connectedUsers w !! sid = Some user ->
  isAdmin user = true ->
  JsMap.has sid (activeStreams (streamState w)) = false ->
  let st := streamState w in
  let st' := streamState (fst (start_stream sid now1 now2 w)) in
  JsMap.keys (activeStreams st') = JsMap.keys (activeStreams st) ++ [sid]
  /\ JsMap.has sid (activeStreams st') = true
  /\ isLive st' = true
  /\ currentAdminSocketId st' = Some sid
  /\ startTime st' = Some now1
  /\ viewerCount st' = viewerCount st.
Proof.
  intros Hu Ha Hh. unfold start_stream. rewrite Hu, Ha, Hh. simpl.
  split; [by apply keys_set_new|]. split; [apply has_set|done].
Qed.

Lemma start_stream_takes_primary_witness :
  connectedUsers Scenario.one_live !! "admin2"
    = Some {| username := "Admin2"; isAdmin := true; joinTime := 102 |}
  /\ JsMap.has "admin2" (activeStreams (streamState Scenario.one_live)) = false
  /\ currentAdminSocketId
       (streamState (fst (start_stream "admin2" 103 104 Scenario.one_live)))
     = Some "admin2".
Proof.
  split; [reflexivity|]. split; [reflexivity|].
  apply (start_stream_takes_primary Scenario.one_live "admin2"
           {| username := "Admin2"; isAdmin := true; joinTime := 102 |}
           103 104); reflexivity.
Defined.

(** C1 as stated fails: with admin1 live and primary, admin2's
    ['start-stream'] succeeds and replaces both the primary and the start
    time. *)
Lemma second_broadcaster_becomes_primary :
  let w := Scenario.one_live in
  let w' := fst (start_stream "admin2" 103 104 w) in
  (isLive (streamState w) = true
   /\ JsMap.keys (activeStreams (streamState w)) = ["admin1"]
   /\ currentAdminSocketId (streamState w) = Some "admin1"
   /\ startTime (streamState w) = Some 101)
  /\ JsMap.keys (activeStreams (streamState w')) = ["admin1"; "admin2"]
  /\ currentAdminSocketId (streamState w') = Some "admin2"
  /\ startTime (streamState w') = Some 103
  /\ currentAdminSocketId (streamState w')
       <> currentAdminSocketId (streamState w)
  /\ startTime (streamState w') <> startTime (streamState w).
Proof. vm_compute. repeat split; discriminate. Qed.

(** * The invariant *)

(** C2: after every sequence of events, hence after every transition, the
    stream is live iff [activeStreams] is non-empty, the primary is
    non-null iff the stream is live, and the primary is a key of
    [activeStreams]. *)
Theorem stream_invariant :
  forall (evs : list (SocketId * Event)) (sid : SocketId) (ev : Event),
    let w := run evs initialWorld in
    StreamInv (streamState w) /\ StreamInv (streamState (fst (step w sid ev))).
Proof.
  intros evs sid ev w.
  assert (StreamInv (streamState w)) as Hw by apply run_inv, initial_inv.
  split; [done|by apply step_inv].
Qed.

(** * Failover *)

Lemma length_delete {V} (m : JsMap.t V) k :
  (length m <= S (length (JsMap.delete k m)))%nat.
Proof.
  induction m as [|[k' v'] m IH]; simpl; [lia|].
  destruct (String.eqb k k'); simpl; lia.
Qed.

(** The first key left after a deletion comes before every other key
    that is left. *)
Lemma first_key_delete_oldest {V} (m : JsMap.t V) k next :
  NoDup (JsMap.keys m) ->
  JsMap.first_key (JsMap.delete k m) = Some next ->
  next ∈ JsMap.keys m /\ next <> k
  /\ forall k', k' ∈ JsMap.keys m -> k' <> k -> k' <> next ->
                JsMap.inserted_before next k' m.
Proof.
  intros Hnd Hfirst. unfold JsMap.first_key in Hfirst.
  pose proof (keys_delete_sublist m k) as Hsub.
  pose proof (keys_delete_self m k Hnd) as Hself.
  destruct (JsMap.keys (JsMap.delete k m)) as [|n rest] eqn:Hkeys; [done|].
  injection Hfirst as ->.
  assert (next ∈ next :: rest) as Hin by left.
  split; [by eapply elem_of_sublist|].
  split; [intros Heq; apply Hself; by rewrite <- Heq|].
  intros k' Hk' Hne Hnn.
  assert (k' ∈ next :: rest) as Hk'r.
  { rewrite <- Hkeys. by apply keys_delete_other. }
  apply elem_of_cons in Hk'r as [?|Hk'r]; [done|].
  apply list_elem_of_lookup in Hk'r as [j Hj].
  unfold JsMap.inserted_before.
  apply (sublist_before (next :: rest)); [done|].
  exists O, (S j). split; [done|]. split; [done|lia].
Qed.

(** C3: when the primary admin stops or disconnects while at least one
    other stream is active, the new primary is the remaining stream that
    was inserted first, a ['stream-transition'] naming it goes to all,
    the stream stays live, and ['disconnect'] leaves the same stream state
    as ['stop-stream']. *)
Theorem failover_fifo w sid user :
  reachable w ->
  connectedUsers w !! sid = Some user ->
  isAdmin user = true ->
  currentAdminSocketId (streamState w) = Some sid ->
  2 <= JsMap.size (activeStreams (streamState w)) ->
  exists next,
    (next ∈ JsMap.keys (activeStreams (streamState w)) /\ next <> sid
     /\ forall k, k ∈ JsMap.keys (activeStreams (streamState w)) ->
                  k <> sid -> k <> next ->
                  JsMap.inserted_before next k (activeStreams (streamState w)))
    /\ currentAdminSocketId (streamState (fst (stop_stream sid w))) = Some next
    /\ isLive (streamState (fst (stop_stream sid w))) = true
    /\ snd (stop_stream sid w)
       = [(ToAll, StreamTransition "Stream switched to another admin"
                    (Some next))]
    /\ streamState (fst (disconnect sid w))
       = streamState (fst (stop_stream sid w))
    /\ snd (disconnect sid w)
       = [(ToAll, StreamTransition "Stream switched due to admin disconnect"
                    (Some next))].
Proof.
  intros [[Hl Hp Hk] Hnd _ _]%reachable_wf Hu Ha Hc Hsz.
  assert (JsMap.has sid (activeStreams (streamState w)) = true) as Hh
    by by apply Hk.
  assert (isLive (streamState w) = true) as Hlive
    by (apply Hp; congruence).
  assert ((0 <? JsMap.size (JsMap.delete sid (activeStreams (streamState w))))
          = true) as Hpos.
  { apply Z.ltb_lt. unfold JsMap.size in *.
    pose proof (length_delete (activeStreams (streamState w)) sid). lia. }
  destruct (size_pos_first_key _ Hpos) as (next & Hfirst & _).
  exists next. split; [by apply (first_key_delete_oldest _ sid)|].
  unfold stop_stream, disconnect.
  rewrite Hu, Ha, Hh, Hc, bool_decide_eq_true_2, Hpos, Hfirst by done.
  simpl. by rewrite Hlive.
Qed.

Lemma failover_fifo_witness :
  reachable Scenario.three_live
  /\ currentAdminSocketId (streamState Scenario.three_live) = Some "admin3"
  /\ JsMap.keys (activeStreams (streamState Scenario.three_live))
     = ["admin1"; "admin2"; "admin3"]
  /\ exists next,
       currentAdminSocketId
         (streamState (fst (stop_stream "admin3" Scenario.three_live)))
       = Some next
       /\ currentAdminSocketId
            (streamState (fst (disconnect "admin3" Scenario.three_live)))
          = Some next.
Proof.
  assert (reachable Scenario.three_live) as Hr.
  { exists Scenario.three_live_trace. split; reflexivity. }
  split; [exact Hr|]. split; [reflexivity|]. split; [reflexivity|].
  destruct (failover_fifo Scenario.three_live "admin3"
              {| username := "Admin3"; isAdmin := true; joinTime := 104 |}
              Hr eq_refl eq_refl eq_refl)
    as (next & _ & Hstop & _ & _ & Hsame & _).
  - vm_compute. discriminate.
  - exists next. split; [exact Hstop|]. rewrite Hsame. exact Hstop.
Defined.

(** In that execution the new primary is the first admin to have started,
    not the most recent of the two that remain. *)
Example failover_three_live :
  currentAdminSocketId
    (streamState (fst (stop_stream "admin3" Scenario.three_live)))
  = Some "admin1".
Proof. reflexivity. Qed.

(** * Losing a connection *)

(** C4, as amended: the ['disconnect'] of a registered connection does
    exactly one of three things to the stream state. For an admin with an
    active stream it is ['stop-stream'] (the same state, the same
    emissions up to their message text); for an admin without one it
    changes nothing and emits nothing; for every connection that is not an
    admin it is ['leave-stream'], whether or not that connection ever sent
    ['join-stream']. In each case the registry entry is removed. *)
Theorem disconnect_dispatch w sid user :
  connectedUsers w !! sid = Some user ->
  let d := disconnect sid w in
  connectedUsers (fst d) !! sid = None
  /\ if isAdmin user then
       if JsMap.has sid (activeStreams (streamState w)) then
         streamState (fst d) = streamState (fst (stop_stream sid w))
         /\ strip_all (snd d) = strip_all (snd (stop_stream sid w))
       else streamState (fst d) = streamState w /\ snd d = []
     else
       streamState (fst d) = streamState (fst (leave_stream sid w))
       /\ snd d = snd (leave_stream sid w).
Proof.
  intros Hu d. split.
  - subst d. unfold disconnect. rewrite Hu.
    repeat case_match; simpl; apply lookup_delete_eq.
  - destruct (isAdmin user) eqn:Ha.
    + destruct (JsMap.has sid (activeStreams (streamState w))) eqn:Hh.
      * by apply (disconnect_as_stop w sid user).
      * apply disconnect_idle. by rewrite Hu.
    + by apply (disconnect_as_leave w sid user).
Qed.

Lemma disconnect_dispatch_witness :
  connectedUsers Scenario.two_viewers !! "viewer2"
    = Some {| username := "V2"; isAdmin := false; joinTime := 111 |}
  /\ streamState (fst (disconnect "viewer2" Scenario.two_viewers))
     = streamState (fst (leave_stream "viewer2" Scenario.two_viewers)).
Proof.
  split; [reflexivity|].
  exact (proj1 (proj2 (disconnect_dispatch Scenario.two_viewers "viewer2"
                         {| username := "V2"; isAdmin := false;
                            joinTime := 111 |} eq_refl))).
Defined.

(** C4 as stated fails: viewer2 registered while the stream was live and
    never sent ['join-stream'], yet its disconnect takes the viewer count
    from 1 to 0. *)
Lemma disconnect_of_uncounted_viewer :
  let w := Scenario.two_viewers in
  (("viewer2", JoinStream) ∉ Scenario.two_viewers_trace)
  /\ connectedUsers w !! "viewer2"
     = Some {| username := "V2"; isAdmin := false; joinTime := 111 |}
  /\ JsMap.has "viewer2" (activeStreams (streamState w)) = false
  /\ viewerCount (streamState w) = 1
  /\ viewerCount (streamState (fst (disconnect "viewer2" w))) = 0
  /\ streamState (fst (disconnect "viewer2" w)) <> streamState w.
Proof.
  split.
  - intros H. vm_compute in H.
    repeat (apply elem_of_cons in H as [H|H]; [discriminate H|]).
    by apply elem_of_nil in H.
  - vm_compute. repeat split. discriminate.
Qed.

(** * Joining and leaving as a viewer *)



Lemma run_count_nonneg evs w :
  0 <= viewerCount (streamState w) ->
  0 <= viewerCount (streamState (run evs w)).
Proof.
  revert w. induction evs as [|[sid ev] evs IH]; intros w Hw; simpl; [done|].
  apply IH. destruct (step_shape w sid ev) as [_ Hv]. lia.
Qed.

(** C6: the viewer count is never negative, whatever events arrive and in
    whatever order; a viewer's ['leave-stream'], and a viewer's
    ['disconnect'], take it to [max 0 (count - 1)]. *)
Theorem viewerCount_never_negative :
  (forall evs, 0 <= viewerCount (streamState (run evs initialWorld)))
  /\ (forall w sid user,
        connectedUsers w !! sid = Some user ->
        isAdmin user = false ->
        isLive (streamState w) = true ->
        viewerCount (streamState (fst (leave_stream sid w)))
        = Z.max 0 (viewerCount (streamState w) - 1)
        /\ viewerCount (streamState (fst (disconnect sid w)))
           = Z.max 0 (viewerCount (streamState w) - 1)).
Proof.
  split.
  - intros evs. by apply run_count_nonneg.
  - intros w sid user Hu Ha Hlive.
    unfold leave_stream, disconnect. rewrite Hu, Ha, Hlive. done.
Qed.

Lemma viewerCount_never_negative_witness :
  0 <= viewerCount
            (streamState
               (run [("viewer1", Connection);
                     ("viewer1", UserInfo "V1" false 110);
                     ("viewer1", LeaveStream); ("viewer1", LeaveStream)]
                  Scenario.one_live))
  /\ (connectedUsers Scenario.two_viewers !! "viewer2"
        = Some {| username := "V2"; isAdmin := false; joinTime := 111 |}
      /\ isLive (streamState Scenario.two_viewers) = true
      /\ viewerCount
           (streamState (fst (leave_stream "viewer2" Scenario.two_viewers)))
         = Z.max 0 (viewerCount (streamState Scenario.two_viewers) - 1)).
Proof.
  split.
  - exact (proj1 viewerCount_never_negative
             (Scenario.one_live_trace ++
              [("viewer1", Connection); ("viewer1", UserInfo "V1" false 110);
               ("viewer1", LeaveStream); ("viewer1", LeaveStream)])).
  - split; [reflexivity|]. split; [reflexivity|].
    exact (proj1 (proj2 viewerCount_never_negative Scenario.two_viewers
                    "viewer2"
                    {| username := "V2"; isAdmin := false; joinTime := 111 |}
                    eq_refl eq_refl eq_refl)).
Defined.

(** * Delivery *)

Lemma inbox_room socks room p s :
  inbox socks [(ToRoom room, p)] s
  = if decide (s = room /\ room ∈ socks) then [p] else [].
Proof.
  unfold inbox. simpl. destruct (decide (room ∈ socks)) as [Hin|Hin].
  - case_decide as Hs.
    + apply elem_of_singleton in Hs as ->. by rewrite decide_True.
    + rewrite decide_False; [done|]. intros [-> _]. apply Hs. set_solver.
  - rewrite decide_False by set_solver. rewrite decide_False; [done|tauto].
Qed.

Lemma inbox_all socks p s :
  inbox socks [(ToAll, p)] s = if decide (s ∈ socks) then [p] else [].
Proof. unfold inbox. simpl. by case_decide. Qed.

(** * The signal relay *)

Lemma webrtc_signal_out w sid data dest :
  sig_to data = Some dest ->
  webrtc_signal sid data w
  = (w, if String.eqb dest "" then []
        else [(ToRoom dest,
               WebrtcSignal (sig_signal data) sid (sig_type data))]).
Proof.
  intros Hto. unfold webrtc_signal. rewrite Hto. simpl.
  by destruct (String.eqb dest "").
Qed.

(** C7: a signal addressed to [dest] reaches no connection other than
    [dest]; whatever [dest] receives carries the payload and the tag of
    the envelope unchanged and, as sender, the id of the socket the event
    came from, whatever sender the envelope named; and an open connection
    [dest] does receive it. *)
Theorem signal_destination_exact w sid data dest :
  sig_to data = Some dest ->
  let out := snd (webrtc_signal sid data w) in
  let relayed := WebrtcSignal (sig_signal data) sid (sig_type data) in
  (forall s, s <> dest -> inbox (sockets w) out s = [])
  /\ (forall p, p ∈ inbox (sockets w) out dest -> p = relayed)
  /\ (dest <> "" -> dest ∈ sockets w -> inbox (sockets w) out dest = [relayed])
  /\ fst (webrtc_signal sid data w) = w.
Proof.
  intros Hto out relayed. subst out.
  rewrite (webrtc_signal_out w sid data dest Hto). simpl.
  destruct (String.eqb_spec dest "") as [Hd|Hd].
  - repeat split; try done. intros p Hp. by apply elem_of_nil in Hp.
  - split; [|split; [|split]]; try done.
    + intros s Hs. rewrite inbox_room. rewrite decide_False; [done|tauto].
    + intros p. rewrite inbox_room. case_decide.
      * by intros ->%list_elem_of_singleton.
      * by intros ?%elem_of_nil.
    + intros _ Hin. rewrite inbox_room. by rewrite decide_True.
Qed.

Lemma signal_destination_exact_witness :
  sig_to (Scenario.answer_to "admin1") = Some "admin1"
  /\ sig_from (Scenario.answer_to "admin1") = Some "admin1"
  /\ inbox (sockets Scenario.two_viewers)
       (snd (webrtc_signal "viewer1" (Scenario.answer_to "admin1")
               Scenario.two_viewers)) "admin1"
     = [WebrtcSignal "sdp" "viewer1" "answer"]
  /\ inbox (sockets Scenario.two_viewers)
       (snd (webrtc_signal "viewer1" (Scenario.answer_to "admin1")
               Scenario.two_viewers)) "viewer2"
     = [].
Proof.
  split; [reflexivity|]. split; [reflexivity|].
  destruct (signal_destination_exact Scenario.two_viewers "viewer1"
              (Scenario.answer_to "admin1") "admin1" eq_refl)
    as (Hother & _ & Hdest & _).
  split.
  - apply Hdest; [discriminate|]. vm_compute. reflexivity.
  - apply Hother. discriminate.
Defined.




(** * The chat relay *)

(** C9, as amended: a ['chat-message'] from a registered connection is
    published to every open connection, the sender included, with the
    sender's name and role taken from [connectedUsers] and the text
    exactly as it was received, of whatever length: the handler neither
    truncates nor rejects. *)
Theorem chat_message_published w sid user text nowMs now :
  connectedUsers w !! sid = Some user ->
  let sent := ChatMessage nowMs (username user) text now (isAdmin user) sid in
  chat_message sid text nowMs now w = (w, [(ToAll, sent)])
  /\ (forall s, s ∈ sockets w ->
        inbox (sockets w) (snd (chat_message sid text nowMs now w)) s = [sent])
  /\ (sid ∈ sockets w ->
        inbox (sockets w) (snd (chat_message sid text nowMs now w)) sid
        = [sent]).
Proof.
  intros Hu sent. unfold chat_message. rewrite Hu. simpl.
  assert (forall s, s ∈ sockets w -> inbox (sockets w) [(ToAll, sent)] s = [sent])
    as Hall.
  { intros s Hs. rewrite inbox_all. by rewrite decide_True. }
  split; [done|]. split; [exact Hall|apply Hall].
Qed.

Lemma chat_message_published_witness :
  connectedUsers Scenario.two_viewers !! "viewer1"
    = Some {| username := "V1"; isAdmin := false; joinTime := 110 |}
  /\ chat_message "viewer1" "hi" 120 121 Scenario.two_viewers
     = (Scenario.two_viewers,
        [(ToAll, ChatMessage 120 "V1" "hi" 121 false "viewer1")]).
Proof.
  split; [reflexivity|].
  exact (proj1 (chat_message_published Scenario.two_viewers "viewer1"
                  {| username := "V1"; isAdmin := false; joinTime := 110 |}
                  "hi" 120 121 eq_refl)).
Defined.

(** C9 as stated fails: a text of 501 characters, one more than the chat
    input of the client allows, is published as it is. *)
Lemma chat_message_unbounded :
  let w := Scenario.two_viewers in
  connectedUsers w !! "viewer1"
    = Some {| username := "V1"; isAdmin := false; joinTime := 110 |}
  /\ (Chat.maxLength < String.length Scenario.long_text)%nat
  /\ snd (chat_message "viewer1" Scenario.long_text 120 121 w)
     = [(ToAll, ChatMessage 120 "V1" Scenario.long_text 121 false "viewer1")]
  /\ inbox (sockets w)
       (snd (chat_message "viewer1" Scenario.long_text 120 121 w)) "admin1"
     = [ChatMessage 120 "V1" Scenario.long_text 121 false "viewer1"].
Proof.
  split; [reflexivity|]. split; [vm_compute; lia|].
  split; [reflexivity|]. vm_compute. reflexivity.
Qed.

(** * Repeated joins *)

(** [js_increment] is the increment of the double at both sides of 2^53
    and at 0. *)
Example js_increment_is_double_increment :
  (js_number (2 ^ 53) =? 9007199254740992)%float = true
  /\ (js_number (js_increment 0) =? js_number 0 + 1)%float = true
  /\ (js_number (js_increment (2 ^ 53 - 1)) =? js_number (2 ^ 53 - 1) + 1)%float
     = true
  /\ (js_number (js_increment (2 ^ 53)) =? js_number (2 ^ 53) + 1)%float = true
  /\ js_increment (2 ^ 53) = 2 ^ 53.
Proof. repeat split; vm_compute; reflexivity. Qed.

Lemma js_increment_min count :
  count <= 2 ^ 53 -> js_increment count = Z.min (count + 1) (2 ^ 53).
Proof.
  intros Hc. unfold js_increment. destruct (Z.ltb_spec count (2 ^ 53)); lia.
Qed.

(** Below 2^53 the handler is [join_stream]. *)
Lemma join_stream_js_below w sid :
  viewerCount (streamState w) < 2 ^ 53 ->
  join_stream_js sid w = join_stream sid w.
Proof.
  intros Hc. unfold join_stream_js, join_stream, js_increment.
  by rewrite (proj2 (Z.ltb_lt _ _) Hc).
Qed.

Lemma join_stream_js_again w sid user :
  connectedUsers w !! sid = Some user ->
  isAdmin user = false ->
  isLive (streamState w) = true ->
  fst (join_stream_js sid w)
  = setStream (setViewerCount (js_increment (viewerCount (streamState w)))
                 (streamState w)) w.
Proof.
  intros Hu Ha Hlive. unfold join_stream_js. by rewrite Hu, Ha, Hlive.
Qed.

(** What [n] joins in a row leave: the same state but for the count. *)
Lemma join_times_world w sid user n :
  connectedUsers w !! sid = Some user ->
  isAdmin user = false ->
  isLive (streamState w) = true ->
  viewerCount (streamState w) <= 2 ^ 53 ->
  join_times n sid w
  = setStream
      (setViewerCount
         (Z.min (viewerCount (streamState w) + Z.of_nat n) (2 ^ 53))
         (streamState w)) w.
Proof.
  revert w. induction n as [|n IH]; intros w Hu Ha Hlive Hc.
  - simpl. replace (Z.min _ _) with (viewerCount (streamState w)) by lia.
    by destruct w as [[] ? ?].
  - cbn [join_times]. rewrite (join_stream_js_again w sid user) by done.
    rewrite js_increment_min by done.
    rewrite IH; cbn [setStream setViewerCount connectedUsers streamState
                     isLive viewerCount]; [|done|done|done|lia].
    unfold setStream, setViewerCount. cbn. do 2 f_equal. lia.
Qed.

(** C10, as amended: ['join-stream'] is not idempotent. For a registered
    connection that is not an admin, while the stream is live, every
    repeated call that finds the viewer count below 2^53 succeeds like the
    first: it adds one more to the count, announces the new count to all
    and confirms to the caller. After [n] calls the count is
    [min (count + n) 2^53]: one connection takes it above every bound
    below 2^53, and no further. *)
Theorem join_stream_not_idempotent w sid user :
  connectedUsers w !! sid = Some user ->
  isAdmin user = false ->
  isLive (streamState w) = true ->
  viewerCount (streamState w) <= 2 ^ 53 ->
  (forall n : nat,
     let wn := join_times n sid w in
     viewerCount (streamState wn)
     = Z.min (viewerCount (streamState w) + Z.of_nat n) (2 ^ 53)
     /\ (viewerCount (streamState wn) < 2 ^ 53 ->
         let count := viewerCount (streamState wn) + 1 in
         viewerCount (streamState (fst (join_stream_js sid wn))) = count
         /\ (ToAll, ViewerCountUpdate count) ∈ snd (join_stream_js sid wn)
         /\ (ToSocket sid,
             ViewerJoinedConfirmed "Successfully joined stream" count)
            ∈ snd (join_stream_js sid wn)
         /\ (forall primary,
               currentAdminSocketId (streamState w) = Some primary ->
               primary <> "" ->
               (ToRoom primary, ViewerJoined count sid (username user))
               ∈ snd (join_stream_js sid wn))))
  /\ (forall bound : Z,
        bound < 2 ^ 53 ->
        exists n : nat, bound < viewerCount (streamState (join_times n sid w))).
Proof.
  intros Hu Ha Hlive Hc. split.
  - intros n wn. subst wn.
    rewrite (join_times_world w sid user n Hu Ha Hlive Hc).
    cbn [setStream setViewerCount streamState viewerCount].
    split; [done|]. intros Hlt. cbv zeta.
    unfold join_stream_js, js_increment.
    cbn [setStream setViewerCount streamState viewerCount connectedUsers
         isLive currentAdminSocketId].
    rewrite Hu, Ha, Hlive, (proj2 (Z.ltb_lt _ _) Hlt).
    cbn [negb andb setViewerCount currentAdminSocketId viewerCount fst snd
         setStream streamState].
    split; [done|]. split; [|split].
    + apply elem_of_app. right. left.
    + apply elem_of_app. right. right. left.
    + intros primary Hp Hne. rewrite Hp. simpl.
      apply String.eqb_neq in Hne. rewrite Hne. simpl. left.
  - intros bound Hb.
    exists (Z.to_nat (bound - viewerCount (streamState w) + 1)).
    rewrite (join_times_world w sid user _ Hu Ha Hlive Hc).
    cbn [setStream setViewerCount streamState viewerCount]. lia.
Qed.

Lemma join_stream_not_idempotent_witness :
  connectedUsers Scenario.two_viewers !! "viewer1"
    = Some {| username := "V1"; isAdmin := false; joinTime := 110 |}
  /\ isLive (streamState Scenario.two_viewers) = true
  /\ viewerCount (streamState Scenario.two_viewers) = 1
  /\ viewerCount (streamState (join_times 3 "viewer1" Scenario.two_viewers))
     = 4.
Proof.
  split; [reflexivity|]. split; [reflexivity|]. split; [reflexivity|].
  exact (proj1 (proj1 (join_stream_not_idempotent Scenario.two_viewers
                         "viewer1"
                         {| username := "V1"; isAdmin := false;
                            joinTime := 110 |}
                         eq_refl eq_refl eq_refl
                         ltac:(vm_compute; discriminate)) 3%nat)).
Defined.

(** C10 as stated fails: the count does not grow without bound. After
    2^53 - 1 further joins of viewer1 the count is 2^53, the state is
    [Scenario.saturated], and one more ['join-stream'] of viewer1
    succeeds, announces 2^53 again and leaves the count where it is; no
    number of joins takes it above 2^53. *)
Lemma join_stream_saturates :
  join_times (Z.to_nat (2 ^ 53 - 1)) "viewer1" Scenario.two_viewers
  = Scenario.saturated
  /\ viewerCount (streamState Scenario.saturated) = 2 ^ 53
  /\ fst (join_stream_js "viewer1" Scenario.saturated) = Scenario.saturated
  /\ snd (join_stream_js "viewer1" Scenario.saturated)
     = [(ToRoom "admin1", ViewerJoined (2 ^ 53) "viewer1" "V1");
        (ToAll, ViewerCountUpdate (2 ^ 53));
        (ToSocket "viewer1",
         ViewerJoinedConfirmed "Successfully joined stream" (2 ^ 53))]
  /\ forall n : nat,
       viewerCount
         (streamState (join_times n "viewer1" Scenario.two_viewers))
       <= 2 ^ 53.
Proof.
  assert (forall n : nat,
            join_times n "viewer1" Scenario.two_viewers
            = setStream
                (setViewerCount (Z.min (1 + Z.of_nat n) (2 ^ 53))
                   (streamState Scenario.two_viewers)) Scenario.two_viewers)
    as Hn.
  { intros n.
    apply (join_times_world Scenario.two_viewers "viewer1"
             {| username := "V1"; isAdmin := false; joinTime := 110 |} n);
      [reflexivity|reflexivity|reflexivity|vm_compute; discriminate]. }
  split; [|split; [reflexivity|split; [reflexivity|split; [reflexivity|]]]].
  - rewrite Hn, Z2Nat.id by lia.
    replace (Z.min (1 + (2 ^ 53 - 1)) (2 ^ 53)) with (2 ^ 53) by lia.
    reflexivity.
  - intros n. rewrite Hn.
    cbn [setStream setViewerCount streamState viewerCount]. lia.
Qed.

(** Membership in an explicit list of emissions, one element at a time. *)
Ltac mem_cases H :=
  repeat first
    [ apply elem_of_app in H as [H|H]
    | apply elem_of_cons in H as [H|H]
    | apply elem_of_nil in H; destruct H ].

(** * Further properties of the handlers *)

(** ** Rejected and ignored requests *)

(** X1: a ['start-stream'] from a connection that is not registered or not
    an admin, or from an admin that is streaming already, changes nothing
    and sends the caller alone one ['stream-error'], whose text tells the
    two cases apart. *)
Theorem start_stream_rejected w sid now1 now2 :
  match connectedUsers w !! sid with
  | Some user =>
      isAdmin user = false
      \/ JsMap.has sid (activeStreams (streamState w)) = true
  | None => True
  end ->
  let message :=
    match connectedUsers w !! sid with
    | Some user =>
        if isAdmin user then "You are already streaming"
        else "Only admins can start streams"
    | None => "Only admins can start streams"
    end in
  start_stream sid now1 now2 w = (w, [(ToSocket sid, StreamError message)])
  /\ forall s, s <> sid ->
       inbox (sockets w) (snd (start_stream sid now1 now2 w)) s = [].
Proof.
  intros Hrej message.
  assert (start_stream sid now1 now2 w
          = (w, [(ToSocket sid, StreamError message)])) as Hs.
  { subst message. unfold start_stream.
    destruct (connectedUsers w !! sid) as [user|]; [|done].
    destruct (isAdmin user); [|done].
    destruct Hrej as [?| ->]; done. }
  split; [done|]. intros s Hs'. rewrite Hs. unfold inbox. simpl.
  case_decide as Hin; [|done]. by apply elem_of_singleton in Hin.
Qed.

Lemma start_stream_rejected_witness :
  JsMap.has "admin1" (activeStreams (streamState Scenario.one_live)) = true
  /\ start_stream "admin1" 120 121 Scenario.one_live
     = (Scenario.one_live,
        [(ToSocket "admin1", StreamError "You are already streaming")]).
Proof.
  split; [reflexivity|].
  exact (proj1 (start_stream_rejected Scenario.one_live "admin1" 120 121
                  (or_intror eq_refl))).
Defined.

(** X2: whenever a handler emits a ['stream-error'], it goes to the
    caller's own socket, it is the only emission of that event, and the
    server state is unchanged. *)
Theorem stream_error_is_local w sid ev target message :
  (target, StreamError message) ∈ snd (step w sid ev) ->
  target = ToSocket sid
  /\ snd (step w sid ev) = [(ToSocket sid, StreamError message)]
  /\ fst (step w sid ev) = w.
Proof.
  destruct ev; simpl;
    unfold connection, user_info, start_stream, stop_stream, join_stream,
      viewer_ready, leave_stream, get_stream_status, webrtc_signal,
      chat_message, disconnect;
    repeat case_match; simpl; intros Hmem; mem_cases Hmem;
    try discriminate Hmem; injection Hmem as <- <-; done.
Qed.

Lemma stream_error_is_local_witness :
  (ToSocket "viewer1", StreamError "No live stream available")
    ∈ snd (step Scenario.offline "viewer1" JoinStream)
  /\ fst (step Scenario.offline "viewer1" JoinStream) = Scenario.offline.
Proof.
  assert ((ToSocket "viewer1", StreamError "No live stream available")
            ∈ snd (step Scenario.offline "viewer1" JoinStream)) as Hin.
  { vm_compute. left. }
  split; [exact Hin|].
  exact (proj2 (proj2 (stream_error_is_local Scenario.offline "viewer1"
                         JoinStream _ _ Hin))).
Defined.

(** ** The life of a stream *)

Lemma elem_of_set {V} (m : JsMap.t V) k v k' v' :
  (k', v') ∈ JsMap.set k v m -> (k', v') ∈ m \/ v' = v.
Proof.
  induction m as [|[k0 v0] m IH]; simpl.
  - intros [= _ ->]%list_elem_of_singleton. by right.
  - destruct (String.eqb k k0).
    + intros [[= _ ->]|?]%elem_of_cons; [by right|left; by right].
    + intros [->|Hin]%elem_of_cons; [left; left|].
      destruct (IH Hin); [left; by right|by right].
Qed.

Lemma elem_of_delete {V} (m : JsMap.t V) k k' v' :
  (k', v') ∈ JsMap.delete k m -> (k', v') ∈ m.
Proof.
  induction m as [|[k0 v0] m IH]; simpl; [done|].
  destruct (String.eqb k k0).
  - by right.
  - intros [->|Hin]%elem_of_cons; [left|right; by apply IH].
Qed.

Lemma has_delete_self {V} (m : JsMap.t V) k :
  NoDup (JsMap.keys m) -> JsMap.has k (JsMap.delete k m) = false.
Proof. intros Hnd. by apply has_false, keys_delete_self. Qed.

Lemma step_settled w sid ev :
  Settled (streamState w) -> Settled (streamState (fst (step w sid ev))).
Proof.
  intros [Hc Hs Hl Hf].
  destruct ev; simpl;
    unfold connection, user_info, start_stream, stop_stream, join_stream,
      viewer_ready, leave_stream, get_stream_status, webrtc_signal,
      chat_message, disconnect;
    repeat case_match; simpl; try (by split);
    split; simpl; intros; try congruence; eauto using elem_of_delete.
  all: try match goal with
       | Hin : _ ∈ JsMap.set _ _ _ |- _ =>
           apply elem_of_set in Hin as [Hin| ->]; eauto
       end.
  all: match goal with
       | Ha : _ && isLive ?st = true, Hb : isLive ?st = false |- _ =>
           rewrite Hb, andb_false_r in Ha; discriminate Ha
       end.
Qed.

Lemma run_settled evs w :
  Settled (streamState w) -> Settled (streamState (run evs w)).
Proof.
  revert w. induction evs as [|[sid ev] evs IH]; intros w Hw; simpl; [done|].
  by apply IH, step_settled.
Qed.

Lemma reachable_settled w : reachable w -> Settled (streamState w).
Proof.
  intros (evs & _ & <-). apply run_settled. split; simpl; try done.
  intros k info Hin. by apply elem_of_nil in Hin.
Qed.

Lemma reachable_offline_or_started w :
  reachable w ->
  (isLive (streamState w) = false -> streamState w = initialStreamState)
  /\ (isLive (streamState w) = true -> is_Some (startTime (streamState w))).
Proof.
  intros Hr. pose proof (reachable_settled w Hr) as [Hc Hs Hl _].
  pose proof (reachable_wf w Hr) as [[Hlive Hprim _] _ _ _].
  split.
  - intros Hoff. destruct (streamState w) as [live streams count start current].
    simpl in *. subst live. rewrite Hc, Hs by done.
    destruct streams; [|by destruct Hlive as [_ Hlive]; discriminate Hlive].
    destruct current; [|done].
    by destruct Hprim as [Hprim _]; discriminate Hprim.
  - intros Hon. destruct (startTime (streamState w)); [eauto|by destruct Hl].
Qed.

(** X3: between streams the state is the initial one again: whenever the
    stream is offline, every field of [streamState] has its initial value
    (no stream, no primary, no start time, viewer count 0); and whenever
    it is live a start time is set. *)
Theorem offline_state_is_initial w :
  reachable w ->
  (isLive (streamState w) = false -> streamState w = initialStreamState)
  /\ (isLive (streamState w) = true -> is_Some (startTime (streamState w))).
Proof. apply reachable_offline_or_started. Qed.

Lemma offline_state_is_initial_witness :
  reachable Scenario.offline
  /\ isLive (streamState Scenario.offline) = false
  /\ streamState Scenario.offline = initialStreamState.
Proof.
  assert (reachable Scenario.offline) as Hr.
  { exists Scenario.offline_trace. split; reflexivity. }
  split; [exact Hr|]. split; [reflexivity|].
  exact (proj1 (offline_state_is_initial Scenario.offline Hr) eq_refl).
Defined.

(** X4: every stream in [activeStreams] carries [isPrimary = true],
    whichever admin is the current one: the flag is set when a stream is
    added and never cleared. *)
Theorem every_stream_flagged_primary w k info :
  reachable w ->
  (k, info) ∈ activeStreams (streamState w) ->
  isPrimary info = true.
Proof. intros [_ _ _ Hf]%reachable_settled. apply Hf. Qed.

Lemma every_stream_flagged_primary_witness :
  reachable Scenario.three_live
  /\ currentAdminSocketId (streamState Scenario.three_live) = Some "admin3"
  /\ isPrimary {| adminUsername := "Admin1"; streamStart := 101;
                  isPrimary := true |} = true.
Proof.
  assert (reachable Scenario.three_live) as Hr.
  { exists Scenario.three_live_trace. split; reflexivity. }
  split; [exact Hr|]. split; [reflexivity|].
  apply (every_stream_flagged_primary Scenario.three_live "admin1" _ Hr).
  vm_compute. left.
Defined.

(** When ['stop-stream'] does nothing. *)
Lemma stop_stream_noop w sid :
  match connectedUsers w !! sid with
  | Some user =>
      isAdmin user && JsMap.has sid (activeStreams (streamState w)) = false
  | None => True
  end ->
  stop_stream sid w = (w, []).
Proof.
  unfold stop_stream. destruct (connectedUsers w !! sid) as [user|]; [|done].
  by intros ->.
Qed.

Lemma stop_stream_registry w sid :
  connectedUsers (fst (stop_stream sid w)) = connectedUsers w.
Proof. unfold stop_stream. by repeat case_match. Qed.

Lemma stop_stream_streams w sid :
  activeStreams (streamState (fst (stop_stream sid w)))
  = activeStreams (streamState w)
  \/ activeStreams (streamState (fst (stop_stream sid w)))
     = JsMap.delete sid (activeStreams (streamState w)).
Proof. unfold stop_stream. repeat case_match; simpl; auto. Qed.

(** X5: ['stop-stream'] is idempotent: sent a second time by the same
    connection it changes nothing and emits nothing. *)
Theorem stop_stream_idempotent w sid :
  reachable w ->
  stop_stream sid (fst (stop_stream sid w)) = (fst (stop_stream sid w), []).
Proof.
  intros [_ Hnd _ _]%reachable_wf.
  apply stop_stream_noop. rewrite stop_stream_registry.
  destruct (connectedUsers w !! sid) as [user|] eqn:Hu; [|done].
  destruct (isAdmin user) eqn:Ha; [|done]. simpl.
  destruct (JsMap.has sid (activeStreams (streamState w))) eqn:Hh.
  - unfold stop_stream. rewrite Hu, Ha, Hh. simpl.
    repeat case_match; simpl; by apply has_delete_self.
  - by rewrite stop_stream_noop by (by rewrite Hu, Ha, Hh).
Qed.

Lemma stop_stream_idempotent_witness :
  reachable Scenario.three_live
  /\ snd (stop_stream "admin3" Scenario.three_live) <> []
  /\ snd (stop_stream "admin3" (fst (stop_stream "admin3" Scenario.three_live)))
     = [].
Proof.
  assert (reachable Scenario.three_live) as Hr.
  { exists Scenario.three_live_trace. split; reflexivity. }
  split; [exact Hr|]. split; [vm_compute; discriminate|].
  rewrite (stop_stream_idempotent Scenario.three_live "admin3" Hr).
  reflexivity.
Defined.

Lemma sole_stream w sid :
  reachable w ->
  JsMap.has sid (activeStreams (streamState w)) = true ->
  JsMap.size (activeStreams (streamState w)) = 1 ->
  JsMap.delete sid (activeStreams (streamState w)) = []
  /\ currentAdminSocketId (streamState w) = Some sid.
Proof.
  intros [[Hl Hp Hk] _ _ _]%reachable_wf Hh Hsz.
  destruct (activeStreams (streamState w)) as [|[k info] [|? ?]] eqn:Hm;
    [done| |unfold JsMap.size in Hsz; simpl in Hsz; lia].
  assert (k = sid) as ->.
  { apply has_true in Hh. by apply list_elem_of_singleton in Hh. }
  simpl. rewrite String.eqb_refl. split; [done|].
  destruct (currentAdminSocketId (streamState w)) as [c|] eqn:Hc.
  - specialize (Hk c eq_refl). apply has_true in Hk.
    by apply list_elem_of_singleton in Hk as ->.
  - exfalso. apply (proj2 Hp); [|done]. by apply Hl.
Qed.

(** X6: when the only active stream is stopped, or its admin disconnects,
    the stream state is reset to the initial one (offline, no primary, no
    start time, viewer count 0) and all connections are sent
    ['stream-ended'] followed by the offline ['stream-status']. *)
Theorem last_stream_ends w sid user :
  reachable w ->
  connectedUsers w !! sid = Some user ->
  isAdmin user = true ->
  JsMap.has sid (activeStreams (streamState w)) = true ->
  JsMap.size (activeStreams (streamState w)) = 1 ->
  stop_stream sid w
  = (setStream initialStreamState w,
     [(ToAll, StreamEnded "Live stream ended");
      (ToAll, StreamStatus false 0 None None)])
  /\ streamState (fst (disconnect sid w)) = initialStreamState
  /\ snd (disconnect sid w)
     = [(ToAll, StreamEnded "Stream ended - Admin disconnected");
        (ToAll, StreamStatus false 0 None None)].
Proof.
  intros Hr Hu Ha Hh Hsz.
  destruct (sole_stream w sid Hr Hh Hsz) as [Hdel Hc].
  unfold stop_stream, disconnect.
  rewrite Hu, Ha, Hh, Hc, Hdel, bool_decide_eq_true_2 by done. done.
Qed.

Lemma last_stream_ends_witness :
  reachable Scenario.two_viewers
  /\ viewerCount (streamState Scenario.two_viewers) = 1
  /\ streamState (fst (stop_stream "admin1" Scenario.two_viewers))
     = initialStreamState.
Proof.
  assert (reachable Scenario.two_viewers) as Hr.
  { exists Scenario.two_viewers_trace. split; reflexivity. }
  split; [exact Hr|]. split; [reflexivity|].
  rewrite (proj1 (last_stream_ends Scenario.two_viewers "admin1"
                    {| username := "Admin1"; isAdmin := true;
                       joinTime := 100 |}
                    Hr eq_refl eq_refl eq_refl eq_refl)).
  reflexivity.
Defined.

(** X7: when an admin that is streaming but is not the current one stops
    or disconnects, its stream is removed and nothing else happens: the
    current admin, the live flag, the viewer count and the start time
    stay, and nothing is emitted to anyone. *)
Theorem secondary_stop_is_silent w sid user :
  reachable w ->
  connectedUsers w !! sid = Some user ->
  isAdmin user = true ->
  JsMap.has sid (activeStreams (streamState w)) = true ->
  currentAdminSocketId (streamState w) <> Some sid ->
  let st := streamState w in
  let st' := streamState (fst (stop_stream sid w)) in
  snd (stop_stream sid w) = []
  /\ snd (disconnect sid w) = []
  /\ streamState (fst (disconnect sid w)) = st'
  /\ JsMap.has sid (activeStreams st') = false
  /\ currentAdminSocketId st' = currentAdminSocketId st
  /\ isLive st' = true
  /\ viewerCount st' = viewerCount st
  /\ startTime st' = startTime st.
Proof.
  intros Hr Hu Ha Hh Hc.
  pose proof (reachable_wf w Hr) as [[Hl _ _] Hnd _ _].
  assert (isLive (streamState w) = true) as Hlive.
  { apply Hl. intros Hnil. by rewrite Hnil in Hh. }
  unfold stop_stream, disconnect.
  rewrite Hu, Ha, Hh, bool_decide_eq_false_2 by done. simpl.
  repeat split; [by apply has_delete_self|done].
Qed.

Lemma secondary_stop_is_silent_witness :
  reachable Scenario.three_live
  /\ currentAdminSocketId (streamState Scenario.three_live) = Some "admin3"
  /\ snd (stop_stream "admin1" Scenario.three_live) = []
  /\ currentAdminSocketId
       (streamState (fst (stop_stream "admin1" Scenario.three_live)))
     = Some "admin3".
Proof.
  assert (reachable Scenario.three_live) as Hr.
  { exists Scenario.three_live_trace. split; reflexivity. }
  split; [exact Hr|]. split; [reflexivity|].
  destruct (secondary_stop_is_silent Scenario.three_live "admin1"
              {| username := "Admin1"; isAdmin := true; joinTime := 100 |}
              Hr eq_refl eq_refl eq_refl)
    as (Hout & _ & _ & _ & Hcur & _).
  - discriminate.
  - split; [exact Hout|]. rewrite Hcur. reflexivity.
Defined.

(** X8: starting a stream while offline and stopping it again restores the
    stream state as it was, and the stop announces the end of the stream
    to all. *)
Theorem start_then_stop w sid user now1 now2 :
  reachable w ->
  connectedUsers w !! sid = Some user ->
  isAdmin user = true ->
  isLive (streamState w) = false ->
  let started := fst (start_stream sid now1 now2 w) in
  isLive (streamState started) = true
  /\ streamState (fst (stop_stream sid started)) = streamState w
  /\ snd (stop_stream sid started)
     = [(ToAll, StreamEnded "Live stream ended");
        (ToAll, StreamStatus false 0 None None)].
Proof.
  intros Hr Hu Ha Hoff.
  pose proof (proj1 (reachable_offline_or_started w Hr) Hoff) as Hinit.
  unfold start_stream. rewrite Hu, Ha, Hinit. simpl.
  unfold stop_stream. simpl. rewrite Hu, Ha. simpl.
  rewrite String.eqb_refl, bool_decide_eq_true_2 by done.
  unfold JsMap.has. simpl. rewrite String.eqb_refl. done.
Qed.

Lemma start_then_stop_witness :
  reachable Scenario.offline
  /\ isLive (streamState Scenario.offline) = false
  /\ streamState
       (fst (stop_stream "admin1"
               (fst (start_stream "admin1" 102 103 Scenario.offline))))
     = streamState Scenario.offline.
Proof.
  assert (reachable Scenario.offline) as Hr.
  { exists Scenario.offline_trace. split; reflexivity. }
  split; [exact Hr|]. split; [reflexivity|].
  exact (proj1 (proj2 (start_then_stop Scenario.offline "admin1"
                         {| username := "Admin1"; isAdmin := true;
                            joinTime := 101 |}
                         102 103 Hr eq_refl eq_refl eq_refl))).
Defined.

(** ** Viewers *)



(** X10: a ['leave-stream'] when the viewer count is already 0 leaves the
    server state as it is, and is announced all the same: the current
    admin is sent ['viewer-left'] and everyone the count 0. *)
Theorem leave_at_zero w sid user :
  reachable w ->
  connectedUsers w !! sid = Some user ->
  isAdmin user = false ->
  isLive (streamState w) = true ->
  viewerCount (streamState w) = 0 ->
  exists primary,
    currentAdminSocketId (streamState w) = Some primary
    /\ leave_stream sid w
       = (w, [(ToRoom primary, ViewerLeft 0 sid (username user));
              (ToAll, ViewerCountUpdate 0)]).
Proof.
  intros Hr Hu Ha Hlive Hzero.
  destruct (reachable_primary w Hr Hlive) as (primary & Hc & Ht & _).
  exists primary. split; [done|].
  unfold leave_stream. rewrite Hu, Ha, Hlive, Hzero.
  cbn [negb andb setViewerCount currentAdminSocketId viewerCount].
  rewrite Hc, Ht. simpl. f_equal.
  destruct w as [st users socks]. unfold setStream, setViewerCount. simpl in *.
  f_equal. destruct st. simpl in *. by subst.
Qed.

Lemma leave_at_zero_witness :
  reachable Scenario.one_live
  /\ viewerCount (streamState Scenario.one_live) = 0
  /\ exists primary,
       leave_stream "viewer1"
         (fst (user_info "viewer1" "V1" false 110 Scenario.one_live))
       = (fst (user_info "viewer1" "V1" false 110 Scenario.one_live),
          [(ToRoom primary, ViewerLeft 0 "viewer1" "V1");
           (ToAll, ViewerCountUpdate 0)]).
Proof.
  assert (reachable Scenario.one_live) as Hr.
  { exists Scenario.one_live_trace. split; reflexivity. }
  split; [exact Hr|]. split; [reflexivity|].
  assert (reachable (fst (user_info "viewer1" "V1" false 110 Scenario.one_live)))
    as Hr'.
  { exists (Scenario.one_live_trace ++ [("viewer1", UserInfo "V1" false 110)]).
    split; reflexivity. }
  destruct (leave_at_zero _ "viewer1"
              {| username := "V1"; isAdmin := false; joinTime := 110 |}
              Hr' eq_refl eq_refl eq_refl eq_refl) as (primary & _ & Hleave).
  exists primary. exact Hleave.
Defined.

Lemma step_count_bound w sid ev :
  0 <= viewerCount (streamState w) ->
  0 <= viewerCount (streamState (fst (step w sid ev)))
       <= viewerCount (streamState w) + (if is_join (sid, ev) then 1 else 0).
Proof.
  intros Hc. destruct ev; simpl;
    unfold connection, user_info, start_stream, stop_stream, join_stream,
      viewer_ready, leave_stream, get_stream_status, webrtc_signal,
      chat_message, disconnect;
    repeat case_match; simpl; lia.
Qed.

Lemma run_count_bound evs w :
  0 <= viewerCount (streamState w) ->
  viewerCount (streamState (run evs w)) <= viewerCount (streamState w) + joins evs.
Proof.
  revert w. induction evs as [|[sid ev] evs IH]; intros w Hc; simpl; [lia|].
  pose proof (step_count_bound w sid ev Hc) as Hs.
  specialize (IH (fst (step w sid ev)) (proj1 Hs)).
  destruct (is_join (sid, ev)); lia.
Qed.

(** X11: the viewer count never exceeds the number of ['join-stream']
    events the server has received. *)
Theorem viewerCount_at_most_joins :
  forall evs, viewerCount (streamState (run evs initialWorld)) <= joins evs.
Proof. intros evs. by apply (run_count_bound evs initialWorld). Qed.

(** X12: what the server announces is current. In the emissions of any
    event, every ['stream-status'] is the snapshot of the state after the
    event and every viewer count is the count after the event; and
    ['viewer-joined'] and ['viewer-left'] go to the room of the admin that
    is current after the event, naming the caller as the viewer. *)
Theorem announcements_are_current w sid ev target payload :
  (target, payload) ∈ snd (step w sid ev) ->
  let st' := streamState (fst (step w sid ev)) in
  match payload with
  | StreamStatus _ _ _ _ => payload = statusOf st'
  | ViewerCountUpdate count => target = ToAll /\ count = viewerCount st'
  | ViewerJoinedConfirmed _ count =>
      target = ToSocket sid /\ count = viewerCount st'
  | ViewerJoined count viewer _ | ViewerLeft count viewer _ =>
      count = viewerCount st' /\ viewer = sid
      /\ exists admin, target = ToRoom admin
                       /\ currentAdminSocketId st' = Some admin
  | _ => True
  end.
Proof.
  destruct ev; simpl;
    unfold connection, user_info, start_stream, stop_stream, join_stream,
      viewer_ready, leave_stream, get_stream_status, webrtc_signal,
      chat_message, disconnect;
    repeat case_match; simpl; intros Hmem; mem_cases Hmem;
    try discriminate Hmem; simplify_eq; simpl in *; eauto.
Qed.

Lemma announcements_are_current_witness :
  (ToAll, ViewerCountUpdate 2)
    ∈ snd (step Scenario.two_viewers "viewer2" JoinStream)
  /\ viewerCount
       (streamState (fst (step Scenario.two_viewers "viewer2" JoinStream)))
     = 2.
Proof.
  assert ((ToAll, ViewerCountUpdate 2)
            ∈ snd (step Scenario.two_viewers "viewer2" JoinStream)) as Hin.
  { vm_compute. right. left. }
  split; [exact Hin|].
  symmetry.
  exact (proj2 (announcements_are_current Scenario.two_viewers "viewer2"
                  JoinStream _ _ Hin)).
Defined.

(** X13: ['viewer-ready'] from a registered connection that is not an
    admin, while the stream is live, is forwarded to the room of the
    current admin with the caller's id and name; from anyone else, or
    while offline, it is ignored. It never changes the state. *)
Theorem viewer_ready_forwarded w sid :
  reachable w ->
  match connectedUsers w !! sid with
  | Some user =>
      if negb (isAdmin user) && isLive (streamState w) then
        exists primary,
          currentAdminSocketId (streamState w) = Some primary
          /\ viewer_ready sid w
             = (w, [(ToRoom primary, ViewerReady sid (username user))])
      else viewer_ready sid w = (w, [])
  | None => viewer_ready sid w = (w, [])
  end.
Proof.
  intros Hr. unfold viewer_ready.
  destruct (connectedUsers w !! sid) as [user|]; [|done].
  destruct (isAdmin user); [done|].
  destruct (isLive (streamState w)) eqn:Hlive; [|done]. simpl.
  destruct (reachable_primary w Hr Hlive) as (primary & Hc & Ht & _).
  exists primary. split; [done|]. by rewrite Hc, Ht.
Qed.

Lemma viewer_ready_forwarded_witness :
  reachable Scenario.two_viewers
  /\ viewer_ready "viewer2" Scenario.two_viewers
     = (Scenario.two_viewers, [(ToRoom "admin1", ViewerReady "viewer2" "V2")])
  /\ viewer_ready "admin1" Scenario.two_viewers = (Scenario.two_viewers, []).
Proof.
  assert (reachable Scenario.two_viewers) as Hr.
  { exists Scenario.two_viewers_trace. split; reflexivity. }
  split; [exact Hr|]. split.
  - pose proof (viewer_ready_forwarded Scenario.two_viewers "viewer2" Hr)
      as (primary & Hc & Hv).
    rewrite Hv. injection Hc as <-. reflexivity.
  - exact (viewer_ready_forwarded Scenario.two_viewers "admin1" Hr).
Defined.

(** ** The registry *)

(** X14: ['user-info'] records the caller under its socket id, replacing
    whatever was recorded before (a second registration makes the first
    one invisible), replies to the caller alone with the current status
    snapshot, and leaves the stream state alone. *)
Theorem user_info_overwrites w sid name1 admin1 now1 name2 admin2 now2 :
  let w1 := fst (user_info sid name1 admin1 now1 w) in
  connectedUsers w1 !! sid
  = Some {| username := name1; isAdmin := admin1; joinTime := now1 |}
  /\ streamState w1 = streamState w
  /\ snd (user_info sid name1 admin1 now1 w)
     = [(ToSocket sid, statusOf (streamState w))]
  /\ fst (user_info sid name2 admin2 now2 w1)
     = fst (user_info sid name2 admin2 now2 w).
Proof.
  unfold user_info. simpl. split; [apply lookup_insert_eq|].
  split; [done|]. split; [done|]. f_equal. apply insert_insert_eq.
Qed.

(** X15: an event only touches the registration and the connection of
    the socket it comes from: for every other socket, the entry in
    [connectedUsers] and the membership in the open connections are the
    same after the event as before. *)
Theorem other_connections_untouched w sid ev other :
  other <> sid ->
  connectedUsers (fst (step w sid ev)) !! other = connectedUsers w !! other
  /\ (other ∈ sockets (fst (step w sid ev)) <-> other ∈ sockets w).
Proof.
  intros Hne. destruct ev; simpl;
    unfold connection, user_info, start_stream, stop_stream, join_stream,
      viewer_ready, leave_stream, get_stream_status, webrtc_signal,
      chat_message, disconnect;
    repeat case_match; simpl;
    (split; [by rewrite ?lookup_insert_ne, ?lookup_delete_ne by done
            |rewrite ?elem_of_union, ?elem_of_difference, ?elem_of_singleton;
             tauto]).
Qed.

Lemma other_connections_untouched_witness :
  "viewer1" <> "viewer2"
  /\ connectedUsers (fst (step Scenario.two_viewers "viewer2" Disconnect))
       !! "viewer1"
     = connectedUsers Scenario.two_viewers !! "viewer1".
Proof.
  split; [discriminate|].
  apply (other_connections_untouched Scenario.two_viewers "viewer2"
           Disconnect "viewer1").
  discriminate.
Defined.

(** X16: the stream state is changed by ['start-stream'], ['stop-stream'],
    ['join-stream'], ['leave-stream'] and ['disconnect'] only: a new
    connection, ['user-info'], ['viewer-ready'], ['get-stream-status'],
    ['webrtc-signal'] and ['chat-message'] leave it as it is, and apart
    from ['user-info'] and the new connection they leave the whole server
    state as it is. *)
Theorem stream_state_frame w sid ev :
  match ev with
  | StartStream _ _ | StopStream | JoinStream | LeaveStream | Disconnect =>
      True
  | Connection | UserInfo _ _ _ =>
      streamState (fst (step w sid ev)) = streamState w
  | _ => fst (step w sid ev) = w
  end.
Proof.
  destruct ev; simpl; try done;
    unfold viewer_ready, webrtc_signal, chat_message; by repeat case_match.
Qed.

(** X17: a socket that connects, registers and disconnects while the
    stream is offline, or that does so as an admin, leaves the whole
    server state as it was before it connected. *)
Theorem visit_leaves_no_trace w sid name admin now :
  sid ∉ sockets w ->
  connectedUsers w !! sid = None ->
  JsMap.has sid (activeStreams (streamState w)) = false ->
  isLive (streamState w) = false \/ admin = true ->
  run [(sid, Connection); (sid, UserInfo name admin now); (sid, Disconnect)] w
  = w.
Proof.
  intros Hs Hu Hh Hquiet. simpl. unfold disconnect, user_info. simpl.
  rewrite lookup_insert_eq. simpl. rewrite Hh, andb_false_r.
  assert (negb admin && isLive (streamState w) = false) as ->.
  { destruct Hquiet as [-> | ->]; [apply andb_false_r|done]. }
  destruct w as [st users socks]. simpl in *. f_equal.
  - rewrite delete_insert_eq. by apply delete_id.
  - apply set_eq. intros x.
    rewrite elem_of_difference, elem_of_union, elem_of_singleton.
    split; [tauto|]. intros Hx. split; [tauto|]. by intros ->.
Qed.

Lemma visit_leaves_no_trace_witness :
  ("viewer9" ∉ sockets Scenario.offline)
  /\ connectedUsers Scenario.offline !! "viewer9" = None
  /\ isLive (streamState Scenario.offline) = false
  /\ run [("viewer9", Connection); ("viewer9", UserInfo "V9" false 130);
          ("viewer9", Disconnect)] Scenario.offline
     = Scenario.offline.
Proof.
  assert ("viewer9" ∉ sockets Scenario.offline) as Hs.
  { vm_compute. intros H. discriminate H. }
  split; [exact Hs|]. split; [reflexivity|]. split; [reflexivity|].
  exact (visit_leaves_no_trace Scenario.offline "viewer9" "V9" false 130
           Hs eq_refl eq_refl (or_introl eq_refl)).
Defined.

(** X18: an admin that registers again as a viewer while it is streaming
    keeps its stream: its ['stop-stream'] is then ignored, and its
    ['disconnect'] removes it from the registry and from the open
    connections but leaves its stream in [activeStreams], the stream live
    and the current admin as it was. *)
Theorem demoted_admin_keeps_stream w sid name now :
  JsMap.has sid (activeStreams (streamState w)) = true ->
  let w1 := fst (user_info sid name false now w) in
  let w2 := fst (disconnect sid w1) in
  stop_stream sid w1 = (w1, [])
  /\ activeStreams (streamState w2) = activeStreams (streamState w)
  /\ isLive (streamState w2) = isLive (streamState w)
  /\ currentAdminSocketId (streamState w2)
     = currentAdminSocketId (streamState w)
  /\ connectedUsers w2 !! sid = None
  /\ sid ∉ sockets w2.
Proof.
  intros Hh. unfold user_info, stop_stream, disconnect. simpl.
  rewrite lookup_insert_eq. simpl.
  split; [done|].
  destruct (isLive (streamState w)) eqn:Hlive; simpl; rewrite ?Hlive;
    (do 3 (split; [done|]); split; [apply lookup_delete_eq|];
     rewrite elem_of_difference, elem_of_singleton; tauto).
Qed.

Lemma demoted_admin_keeps_stream_witness :
  JsMap.has "admin1" (activeStreams (streamState Scenario.one_live)) = true
  /\ activeStreams
       (streamState
          (fst (disconnect "admin1"
                  (fst (user_info "admin1" "Admin1" false 120
                          Scenario.one_live)))))
     = activeStreams (streamState Scenario.one_live).
Proof.
  split; [reflexivity|].
  exact (proj1 (proj2 (demoted_admin_keeps_stream Scenario.one_live "admin1"
                         "Admin1" 120 eq_refl))).
Defined.

(** X19: the ['disconnect'] of a registered admin removes it everywhere:
    afterwards it is not registered, not an open connection and has no
    stream; and if it was the current admin, it is not any more. *)
Theorem admin_disconnect_cleans_up w sid user :
  reachable w ->
  connectedUsers w !! sid = Some user ->
  isAdmin user = true ->
  let w' := fst (disconnect sid w) in
  connectedUsers w' !! sid = None
  /\ (sid ∉ sockets w')
  /\ JsMap.has sid (activeStreams (streamState w')) = false
  /\ currentAdminSocketId (streamState w') <> Some sid.
Proof.
  intros Hr Hu Ha w'.
  pose proof (reachable_wf w Hr) as [[_ _ Hk] Hnd _ _].
  assert (JsMap.has sid (activeStreams (streamState w')) = false) as Hgone.
  { subst w'. unfold disconnect. rewrite Hu, Ha. simpl.
    destruct (JsMap.has sid (activeStreams (streamState w))) eqn:Hh;
      repeat case_match; simpl; by try apply has_delete_self. }
  assert (StreamInv (streamState w')) as [_ _ Hk'].
  { apply disconnect_inv. by apply reachable_wf. }
  split; [|split; [|split; [done|]]].
  - subst w'. unfold disconnect. rewrite Hu.
    repeat case_match; simpl; apply lookup_delete_eq.
  - subst w'. unfold disconnect. rewrite Hu.
    repeat case_match; simpl;
      rewrite elem_of_difference, elem_of_singleton; tauto.
  - intros Hc. apply Hk' in Hc. congruence.
Qed.

Lemma admin_disconnect_cleans_up_witness :
  reachable Scenario.three_live
  /\ currentAdminSocketId (streamState Scenario.three_live) = Some "admin3"
  /\ JsMap.has "admin3"
       (activeStreams
          (streamState (fst (disconnect "admin3" Scenario.three_live))))
     = false.
Proof.
  assert (reachable Scenario.three_live) as Hr.
  { exists Scenario.three_live_trace. split; reflexivity. }
  split; [exact Hr|]. split; [reflexivity|].
  exact (proj1 (proj2 (proj2
           (admin_disconnect_cleans_up Scenario.three_live "admin3"
              {| username := "Admin3"; isAdmin := true; joinTime := 104 |}
              Hr eq_refl eq_refl)))).
Defined.

(** ** Chat and status *)

(** X20: every ['chat-message'] the server emits goes to all, comes from
    a ['chat-message'] event of a registered connection, and carries that
    connection's socket id, its registered name and role, and the text
    and the two clock reads of the event: nobody can publish under
    another connection's identity, and an unregistered connection cannot
    publish at all. *)
Theorem chat_is_attributed w sid ev target id sender text timestamp admin sock :
  (target, ChatMessage id sender text timestamp admin sock)
    ∈ snd (step w sid ev) ->
  target = ToAll /\ sock = sid
  /\ ev = ChatMessageEv text id timestamp
  /\ exists user, connectedUsers w !! sid = Some user
                  /\ sender = username user /\ admin = isAdmin user.
Proof.
  destruct ev; simpl;
    unfold connection, user_info, start_stream, stop_stream, join_stream,
      viewer_ready, leave_stream, get_stream_status, webrtc_signal,
      chat_message, disconnect;
    repeat case_match; simpl; intros Hmem; mem_cases Hmem;
    try discriminate Hmem; simplify_eq; eauto 10.
Qed.

Lemma chat_is_attributed_witness :
  (ToAll, ChatMessage 120 "V1" "hi" 121 false "viewer1")
    ∈ snd (step Scenario.two_viewers "viewer1" (ChatMessageEv "hi" 120 121))
  /\ exists user,
       connectedUsers Scenario.two_viewers !! "viewer1" = Some user
       /\ "V1" = username user /\ false = isAdmin user.
Proof.
  assert ((ToAll, ChatMessage 120 "V1" "hi" 121 false "viewer1")
            ∈ snd (step Scenario.two_viewers "viewer1"
                     (ChatMessageEv "hi" 120 121))) as Hin.
  { vm_compute. left. }
  split; [exact Hin|].
  exact (proj2 (proj2 (proj2
           (chat_is_attributed Scenario.two_viewers "viewer1" _ _ _ _ _ _ _ _
              Hin)))).
Defined.

(** X21: the report of [GET /api/stream-status] is consistent: it says
    live exactly when it counts at least one active stream, a report
    without active streams has viewer count 0 and no start time, and its
    live flag, viewer count and start time are those of the snapshot
    ['get-stream-status'] sends the caller, which changes nothing. *)
Theorem status_report_consistent w sid :
  reachable w ->
  let report := api_stream_status w in
  (report_isLive report = true <-> 1 <= report_activeStreams report)
  /\ (report_activeStreams report = 0 ->
      report_viewerCount report = 0 /\ report_startTime report = None)
  /\ get_stream_status sid w
     = (w, [(ToSocket sid,
             StreamStatus (report_isLive report) (report_viewerCount report)
               (report_startTime report)
               (currentAdminSocketId (streamState w)))]).
Proof.
  intros Hr report.
  pose proof (reachable_wf w Hr) as [[Hl _ _] _ _ _].
  pose proof (reachable_offline_or_started w Hr) as [Hoff _].
  assert (report_isLive report = true <-> 1 <= report_activeStreams report)
    as Hiff.
  { subst report. unfold api_stream_status, JsMap.size. simpl. rewrite Hl.
    destruct (activeStreams (streamState w)); simpl; split; try done; lia. }
  split; [done|]. split; [|done].
  intros Hzero.
  assert (isLive (streamState w) = false) as Hlive.
  { destruct (isLive (streamState w)) eqn:E; [|done].
    apply Hiff in E. lia. }
  subst report. unfold api_stream_status. simpl. by rewrite (Hoff Hlive).
Qed.

Lemma status_report_consistent_witness :
  reachable Scenario.three_live
  /\ report_activeStreams (api_stream_status Scenario.three_live) = 3
  /\ (report_isLive (api_stream_status Scenario.three_live) = true
      <-> 1 <= report_activeStreams (api_stream_status Scenario.three_live)).
Proof.
  assert (reachable Scenario.three_live) as Hr.
  { exists Scenario.three_live_trace. split; reflexivity. }
  split; [exact Hr|]. split; [reflexivity|].
  exact (proj1 (status_report_consistent Scenario.three_live "admin1" Hr)).
Defined.

(** * The token check *)

Lemma split_space_not_nil s : split_space s <> [].
Proof.
  destruct s as [|c s]; simpl; [done|].
  destruct (Ascii.eqb c " "); [done|]. by destruct (split_space s).
Qed.

Lemma split_space_no_space s : has_space s = false -> split_space s = [s].
Proof.
  unfold has_space. induction s as [|c s IH]; [done|].
  cbn [list_ascii_of_string existsb split_space].
  rewrite (Ascii.eqb_sym " " c). destruct (Ascii.eqb c " "); [done|].
  intros H. by rewrite IH.
Qed.

Lemma split_space_app a b :
  has_space a = false ->
  split_space (a ++ String " " b) = a :: split_space b.
Proof.
  unfold has_space. induction a as [|c a IH]; [done|].
  change (String c a +:+ String " " b) with (String c (a +:+ String " " b)).
  cbn [list_ascii_of_string existsb split_space].
  rewrite (Ascii.eqb_sym " " c). destruct (Ascii.eqb c " "); [done|].
  intros H. by rewrite IH.
Qed.

Section AuthFacts.
Context {Claims : Type}.
Variable jwt_verify : string -> string -> option Claims.
Variable JWT_SECRET : option string.

(** X22: a request whose authorization header is two space-free words
    separated by one space is decided by [jwt.verify] on the second word
    alone, with the configured secret or the built-in one when none is
    configured: 403 if it reports an error, [next()] with the decoded user
    otherwise. The first word is not looked at. *)
Theorem authenticateToken_bearer (scheme token : string) :
  has_space scheme = false ->
  has_space token = false ->
  token <> "" ->
  Auth.authenticateToken jwt_verify JWT_SECRET (Some (scheme +:+ " " +:+ token))
  = match jwt_verify token (env_or JWT_SECRET "your-secret-key") with
    | Some user => Auth.Next user
    | None => Auth.Status 403 "Invalid token"
    end.
Proof.
  intros Hs Ht Hne. unfold Auth.authenticateToken.
  assert (truthy (Some (scheme +:+ " " +:+ token)) = true) as ->.
  { simpl. by destruct scheme. }
  change (" " +:+ token) with (String " " token).
  rewrite split_space_app, split_space_no_space by done. simpl.
  apply String.eqb_neq in Hne. by rewrite Hne.
Qed.

(** X23: a request without authorization header, with an empty one, with a
    header of one word, or with two spaces after the first word is
    answered 401 "Access token required", whatever [jwt.verify] would
    say. *)
Theorem authenticateToken_missing (authHeader : option string) :
  match authHeader with
  | None => True
  | Some header =>
      has_space header = false
      \/ exists scheme rest,
           has_space scheme = false /\ header = scheme +:+ "  " +:+ rest
  end ->
  Auth.authenticateToken jwt_verify JWT_SECRET authHeader
  = Auth.Status 401 "Access token required".
Proof.
  unfold Auth.authenticateToken. destruct authHeader as [header|]; [|done].
  intros [Hno|(scheme & rest & Hs & ->)].
  - destruct (truthy (Some header)) eqn:Ht.
    + by rewrite split_space_no_space.
    + by rewrite Ht.
  - assert (truthy (Some (scheme +:+ "  " +:+ rest)) = true) as ->.
    { simpl. by destruct scheme. }
    change ("  " +:+ rest) with (String " " (String " " rest)).
    by rewrite split_space_app.
Qed.

(** X24: [GET /api/protected] answers with the protected message only for
    a request whose header has a non-empty second word that [jwt.verify]
    accepts, and the user it returns is the one decoded from that
    token. *)
Theorem api_protected_needs_token authHeader message user :
  Auth.api_protected jwt_verify JWT_SECRET authHeader
  = Auth.Accepted message user ->
  message = "Protected route accessed"
  /\ exists header token,
       authHeader = Some header
       /\ split_space header !! 1%nat = Some token
       /\ token <> ""
       /\ jwt_verify token (env_or JWT_SECRET "your-secret-key") = Some user.
Proof.
  unfold Auth.api_protected, Auth.authenticateToken.
  destruct authHeader as [header|]; [|done].
  destruct (truthy (Some header)) eqn:Hh.
  - destruct (split_space header !! 1%nat) as [token|] eqn:Hsplit; [|done].
    destruct (truthy (Some token)) eqn:Ht; [|done]. simpl.
    destruct (jwt_verify token _) as [u|] eqn:Hv; [|done].
    intros [= <- <-]. split; [done|]. exists header, token.
    repeat split; try done. intros ->. done.
  - by rewrite Hh.
Qed.
End AuthFacts.

Lemma authenticateToken_bearer_witness :
  has_space "Bearer" = false /\ has_space "abc" = false
  /\ Auth.authenticateToken
       (fun token _ => if String.eqb token "abc" then Some "alice" else None)
       None (Some "Bearer abc")
     = Auth.Next "alice".
Proof.
  split; [reflexivity|]. split; [reflexivity|].
  apply (authenticateToken_bearer
           (fun token _ => if String.eqb token "abc" then Some "alice" else None)
           None "Bearer" "abc"); [reflexivity|reflexivity|discriminate].
Defined.

Lemma authenticateToken_missing_witness :
  has_space "abc" = false
  /\ Auth.authenticateToken
       (fun token _ => if String.eqb token "abc" then Some "alice" else None)
       None (Some "abc")
     = Auth.Status 401 "Access token required".
Proof.
  split; [reflexivity|].
  apply (authenticateToken_missing
           (fun token _ => if String.eqb token "abc" then Some "alice" else None)
           None (Some "abc")).
  left. reflexivity.
Defined.

Lemma api_protected_needs_token_witness :
  Auth.api_protected
    (fun token _ => if String.eqb token "abc" then Some "alice" else None)
    None (Some "Bearer abc")
  = Auth.Accepted "Protected route accessed" "alice"
  /\ exists header token,
       Some "Bearer abc" = Some header
       /\ split_space header !! 1%nat = Some token.
Proof.
  assert (Auth.api_protected
            (fun token _ => if String.eqb token "abc" then Some "alice" else None)
            None (Some "Bearer abc")
          = Auth.Accepted "Protected route accessed" "alice") as Hok
    by reflexivity.
  split; [exact Hok|].
  destruct (api_protected_needs_token _ _ _ _ _ Hok)
    as (_ & header & token & Hh & Hs & _).
  exists header, token. split; [exact Hh|exact Hs].
Defined.

(** * The chat form *)

Section ChatClientFacts.
Import ChatClient.
Implicit Types s message : JsString.

Local Abbreviation blank s := (Forall (fun c => isWhiteSpace c = true) s).

Lemma trimStart_split s :
  exists pre, s = pre ++ trimStart s /\ blank pre.
Proof.
  induction s as [|c s (pre & IH & Hpre)]; simpl.
  - exists []. split; [done|constructor].
  - destruct (isWhiteSpace c) eqn:Hc.
    + exists (c :: pre). split; [simpl; congruence|by constructor].
    + exists []. split; [done|constructor].
Qed.

Lemma trimStart_head s c rest :
  trimStart s = c :: rest -> isWhiteSpace c = false.
Proof.
  induction s as [|c' s IH]; simpl; [done|].
  destruct (isWhiteSpace c') eqn:Hc; [done|]. by intros [= <- _].
Qed.

Lemma trimStart_blank s : blank s <-> trimStart s = [].
Proof.
  induction s as [|c s IH]; simpl; [split; [done|constructor]|].
  destruct (isWhiteSpace c) eqn:Hc.
  - rewrite <- IH. split; [by intros [_ ?]%Forall_cons|by constructor].
  - split; [intros [? _]%Forall_cons; congruence|done].
Qed.

Lemma trimEnd_split s :
  exists post, s = trimEnd s ++ post /\ blank post.
Proof.
  unfold trimEnd. destruct (trimStart_split (reverse s)) as (pre & Hs & Hpre).
  exists (reverse pre). split.
  - rewrite <- reverse_app, <- Hs. by rewrite reverse_involutive.
  - by apply Forall_reverse.
Qed.

Lemma trimEnd_last s c :
  last (trimEnd s) = Some c -> isWhiteSpace c = false.
Proof.
  unfold trimEnd. rewrite last_reverse.
  destruct (trimStart (reverse s)) as [|c' rest] eqn:Ht; [done|].
  intros [= <-]. by apply (trimStart_head (reverse s) c' rest).
Qed.

(** Trimming the end of a string that starts with a character that is not
    white space keeps that character. *)
Lemma trimEnd_head s c rest :
  s = c :: rest -> isWhiteSpace c = false ->
  exists rest', trimEnd s = c :: rest'.
Proof.
  intros -> Hc. destruct (trimEnd (c :: rest)) as [|c' rest'] eqn:Ht.
  - destruct (trimEnd_split (c :: rest)) as (post & Hs & Hpost).
    rewrite Ht in Hs. simpl in Hs. subst post.
    apply Forall_cons in Hpost as [? _]. congruence.
  - destruct (trimEnd_split (c :: rest)) as (post & Hs & _).
    rewrite Ht in Hs. injection Hs as -> _. eauto.
Qed.

Lemma trim_blank s : blank s <-> trim s = [].
Proof.
  unfold trim. split.
  - intros Hb. apply trimStart_blank in Hb. by rewrite Hb.
  - intros Ht. apply trimStart_blank.
    destruct (trimStart s) as [|c rest] eqn:Hs; [done|].
    destruct (trimEnd_head (c :: rest) c rest eq_refl) as (rest' & Hr).
    + by apply (trimStart_head s c rest).
    + congruence.
Qed.

(** X25: when the form is submitted with a text that is not all white
    space and the socket is set, what is emitted is the text without its
    leading and trailing white space: it is not empty, it starts and ends
    with a character that is not white space, only white space was
    removed, so it is no longer than the text typed (at most 500 code
    units when the input kept the text to its [maxLength]); and the input
    is cleared. *)
Theorem sendMessage_sends_trimmed message :
  ~ Forall (fun c => isWhiteSpace c = true) message ->
  sendMessage true message = (Some (trim message), [])
  /\ trim message <> []
  /\ (exists pre post,
        message = pre ++ trim message ++ post
        /\ Forall (fun c => isWhiteSpace c = true) pre
        /\ Forall (fun c => isWhiteSpace c = true) post)
  /\ (exists first, head (trim message) = Some first
                    /\ isWhiteSpace first = false)
  /\ (exists final, last (trim message) = Some final
                    /\ isWhiteSpace final = false)
  /\ (length (trim message) <= length message)%nat
  /\ ((length message <= Chat.maxLength)%nat ->
      (length (trim message) <= Chat.maxLength)%nat).
Proof.
  intros Hnb.
  assert (trim message <> []) as Hne by (by rewrite <- trim_blank).
  destruct (trimStart_split message) as (pre & Hpre & Hbpre).
  destruct (trimEnd_split (trimStart message)) as (post & Hpost & Hbpost).
  fold (trim message) in Hpost.
  assert (message = pre ++ trim message ++ post) as Hsplit by congruence.
  assert (length (trim message) <= length message)%nat as Hlen.
  { rewrite Hsplit at 2. rewrite !length_app. lia. }
  split; [|split; [done|split; [eauto|split; [|split; [|split; [done|lia]]]]]].
  - unfold sendMessage. by destruct (trim message).
  - destruct (trimStart message) as [|c rest] eqn:Hs.
    + exfalso. apply Hne. unfold trim. by rewrite Hs.
    + destruct (trimEnd_head (c :: rest) c rest eq_refl) as (rest' & Hr).
      * by apply (trimStart_head message c rest).
      * exists c. unfold trim. rewrite Hs, Hr. split; [done|].
        by apply (trimStart_head message c rest).
  - destruct (last (trim message)) as [final|] eqn:Hl.
    + exists final. split; [done|]. by apply (trimEnd_last (trimStart message)).
    + apply last_None in Hl. congruence.
Qed.

(** X26: nothing is emitted, and the input keeps its text, exactly when
    the text is empty or all white space, or the socket is not set. *)
Theorem sendMessage_blank socket message :
  sendMessage socket message = (None, message)
  <-> Forall (fun c => isWhiteSpace c = true) message \/ socket = false.
Proof.
  unfold sendMessage. split.
  - destruct (trim message) as [|c rest] eqn:Ht.
    + intros _. left. by apply trim_blank.
    + destruct socket; [done|by right].
  - intros [Hb%trim_blank| ->].
    + by rewrite Hb.
    + by rewrite andb_false_r.
Qed.
End ChatClientFacts.

Lemma sendMessage_sends_trimmed_witness :
  ~ Forall (fun c => ChatClient.isWhiteSpace c = true) [32; 104; 105; 10]%N
  /\ ChatClient.sendMessage true [32; 104; 105; 10]%N
     = (Some [104; 105]%N, []).
Proof.
  assert (~ Forall (fun c => ChatClient.isWhiteSpace c = true)
              [32; 104; 105; 10]%N) as Hnb.
  { intros H. apply Forall_cons in H as [_ H].
    apply Forall_cons in H as [H _]. vm_compute in H. discriminate H. }
  split; [exact Hnb|].
  exact (proj1 (sendMessage_sends_trimmed [32; 104; 105; 10]%N Hnb)).
Defined.

Lemma sendMessage_blank_witness :
  ChatClient.sendMessage true [32; 9; 160]%N = (None, [32; 9; 160]%N)
  /\ ChatClient.sendMessage false [104; 105]%N = (None, [104; 105]%N).
Proof.
  split.
  - apply (proj2 (sendMessage_blank true [32; 9; 160]%N)). left.
    repeat constructor.
  - apply (proj2 (sendMessage_blank false [104; 105]%N)). by right.
Defined.
